(** * PythonFL_Server: the federated-learning server strategy and client

    A shallow embedding of [fl_server/server.py] (the [ServerUI] event table
    and [RichStrategy], a subclass of Flower's [FedAvg]) and of
    [fl_client/client.py] ([FlowerClient], a [NumPyClient] around a Keras
    model), with the properties the specification states about them.

    Conventions.
    - Python [int] is [Z]; a [list] is a [list]; a [dict] with string keys is
      a [gmap string _]; [None] is [None].
    - Floating-point numbers are idealised as exact rationals ([Qc]); a
      metric scalar may also be [nan] or an infinity, because [int()] raises
      on them.
    - The event table of [ServerUI] is the list of its rows, oldest first,
      without the timestamp column.
    - A Python exception is a value of [Exn]; code that may raise returns a
      [Result], and code that also changes a state lives in the monad
      [Eff], which threads the state and stops at the first exception. *)

From Stdlib Require Import ZArith QArith Qcanon Qround Qabs List String Ascii DecimalString Permutation Lia.
From Stdlib Require DecimalPos DecimalZ.
From stdpp Require Import gmap strings list fin_maps.

Open Scope Z_scope.
Open Scope string_scope.

(** ** Text formatting *)

Module Fmt.

(** [str(z)] and [f"{z}"] for a Python int. *)
Definition str_of_Z (z : Z) : string := NilZero.string_of_int (Z.to_int z).

(** Decimal digits of [z >= 0], left-padded with zeros to [width]. *)
Definition pad_digits (width : nat) (z : Z) : string :=
  let s := str_of_Z z in
  String.concat "" (repeat "0" (width - String.length s)) ++ s.

(** Nearest integer to [q], ties to the even neighbour. *)
Definition round_half_even (q : Q) : Z :=
  let f := Qfloor q in
  match Qcompare (q - inject_Z f) (1 # 2) with
  | Lt => f
  | Gt => f + 1
  | Eq => if Z.even f then f else f + 1
  end.

(** [f"{q:.<prec>f}"] for a finite float whose exact value is [q]. *)
Definition format_fixed (prec : nat) (q : Q) : string :=
  let scale := 10 ^ Z.of_nat prec in
  let scaled := round_half_even (Qabs q * inject_Z scale) in
  let sign := if Qlt_le_dec q 0 then "-" else "" in
  let frac := if Nat.eqb prec 0 then "" else "." ++ pad_digits prec (scaled mod scale) in
  sign ++ str_of_Z (scaled / scale) ++ frac.

End Fmt.

(** ** Scalars and metric maps *)

(** A Python float: a finite value, [nan], or a signed infinity. *)
Inductive Float : Type :=
| finite (q : Qc)
| nan
| inf (negative : bool).

(** The numeric members of Flower's [Scalar] union (the metrics maps of the
    data model are string to numeric scalar; [bool] is an [int] subclass). *)
Inductive Scalar : Type :=
| SInt (z : Z)
| SFloat (x : Float)
| SBool (b : bool).

Abbreviation Metrics := (gmap string Scalar).

(** Python exceptions, by class. *)
Inductive Exn : Type :=
| ValueError
| OverflowError
| AttributeError
| TypeError
| KeyError
| ZeroDivisionError
| OtherError (msg : string).

(** The outcome of code that may raise. *)
Abbreviation Result := (sum Exn).

#[global] Instance Result_ret : MRet Result := fun _ a => inr a.
#[global] Instance Result_bind : MBind Result := fun _ _ k r =>
  match r with
  | inl e => inl e
  | inr a => k a
  end.

Module Py.

(** [int(x)]: truncation towards zero for a finite float; [ValueError] on
    [nan] and [OverflowError] on an infinity. *)
Definition int (x : Scalar) : Result Z :=
  match x with
  | SInt z => inr z
  | SBool b => inr (if b then 1 else 0)
  | SFloat (finite q) => inr (Z.quot (Qnum q) (Z.pos (Qden q)))
  | SFloat nan => inl ValueError
  | SFloat (inf _) => inl OverflowError
  end.

(** [f"{x:.<prec>f}"]. *)
Definition format_f (prec : nat) (x : Scalar) : string :=
  match x with
  | SInt z => Fmt.format_fixed prec (inject_Z z)
  | SBool b => Fmt.format_fixed prec (inject_Z (if b then 1 else 0))
  | SFloat (finite q) => Fmt.format_fixed prec q
  | SFloat nan => "nan"
  | SFloat (inf false) => "inf"
  | SFloat (inf true) => "-inf"
  end.

(** [d[key]]. *)
Definition getitem (d : Metrics) (key : string) : Result Scalar :=
  match d !! key with
  | Some v => inr v
  | None => inl KeyError
  end.

(** [d.get(key, default)]. *)
Definition get (d : Metrics) (key : string) (default : Scalar) : Scalar :=
  match d !! key with
  | Some v => v
  | None => default
  end.

(** [" | ".join(parts)]. *)
Definition join (sep : string) (parts : list string) : string :=
  String.concat sep parts.

End Py.

(** ** NumPy arrays and parameter sets *)

Inductive DType : Type := float32 | float64.

#[global] Instance DType_eq_dec : EqDecision DType.
Proof. solve_decision. Defined.

(** An [ndarray]: element type, shape, and the elements in row-major order
    ([length data] is the product of [shape] for every array NumPy builds). *)
Record NDArray : Type := mk_ndarray {
  dtype : DType;
  shape : list nat;
  data : list Qc
}.

(** A ParameterSet: the ordered list of a model's weight arrays. *)
Abbreviation NDArrays := (list NDArray).

Module np.

Definition itemsize (d : DType) : Z :=
  match d with
  | float32 => 4
  | float64 => 8
  end.

(** [a.size]: the number of elements, the product of the dimensions. *)
Definition size (a : NDArray) : Z :=
  fold_right Z.mul 1 (map Z.of_nat (shape a)).

(** [a.nbytes = a.itemsize * a.size]. *)
Definition nbytes (a : NDArray) : Z := itemsize (dtype a) * size a.

(** Type promotion of a binary operation. *)
Definition result_type (d1 d2 : DType) : DType :=
  match d1, d2 with
  | float32, float32 => float32
  | _, _ => float64
  end.

(** [a * k] for a Python number [k]: the scalar does not change the dtype. *)
Definition multiply (a : NDArray) (k : Qc) : NDArray :=
  {| dtype := dtype a; shape := shape a; data := map (fun x => x * k)%Qc (data a) |}.

(** [a / k] for a Python number [k]. *)
Definition divide (a : NDArray) (k : Qc) : NDArray :=
  {| dtype := dtype a; shape := shape a; data := map (fun x => x / k)%Qc (data a) |}.

(** [np.add(a, b)] on arrays of one shape. Arrays of different shapes lie
    outside the ParameterSet invariant (NumPy then broadcasts or raises);
    they are reported as a [ValueError]. *)
Definition add (a b : NDArray) : Result NDArray :=
  if decide (shape a = shape b)
  then inr {| dtype := result_type (dtype a) (dtype b);
              shape := shape a;
              data := zip_with Qcplus (data a) (data b) |}
  else inl ValueError.

End np.

(** ** The server: event table, results, and the strategy interface *)

(** [ServerUI]: the rows of its status table, (event, details), oldest
    first. The live display and the spinners only draw on the terminal. *)
Record ServerUI : Type := mk_ui {
  table : list (string * string)
}.

(** Code that works on a state of type [St] and may raise. *)
Definition Eff (St A : Type) : Type := St -> Result A * St.

#[global] Instance Eff_ret {St : Type} : MRet (Eff St) := fun _ a st => (inr a, st).
#[global] Instance Eff_bind {St : Type} : MBind (Eff St) := fun _ _ k m st =>
  match m st with
  | (inl e, st') => (inl e, st')
  | (inr a, st') => k a st'
  end.

(** A call that does not touch the state. *)
Definition lift {St A : Type} (r : Result A) : Eff St A := fun st => (r, st).

(** Code that logs to the server's table and may raise. *)
Abbreviation UI := (Eff ServerUI).

Module ServerUI.

(** [ServerUI.log(event, details)]: one more row. The copy sent to the
    standard logger is wrapped in [try/except] and cannot raise. *)
Definition log (event details : string) : UI unit :=
  fun ui => (inr tt, {| table := (table ui ++ [(event, details)])%list |}).

End ServerUI.

Record ClientProxy : Type := mk_proxy { cid : string }.

(** A client's answer to [fit] (a ClientUpdate). *)
Record FitRes : Type := mk_fitres {
  fit_parameters : NDArrays;
  fit_num_examples : Z;
  fit_metrics : Metrics
}.

(** A client's answer to [evaluate] (an EvaluateResult). *)
Record EvaluateRes : Type := mk_evalres {
  eval_loss : Qc;
  eval_num_examples : Z;
  eval_metrics : Metrics
}.

(** An entry of a round's [failures]: an answer that came back with an
    error status, or the exception raised while waiting for it. *)
Inductive Failure (R : Type) : Type :=
| failed_result (client : ClientProxy) (res : R)
| failed_exception (e : Exn).

Arguments failed_result {R} client res.
Arguments failed_exception {R} e.

(** The two aggregation methods of a Flower strategy, as [RichStrategy]
    reaches them through [super()]. They do not know the event table. *)
Class Strategy (S : Type) : Type := {
  super_aggregate_fit :
    S -> Z -> list (ClientProxy * FitRes) -> list (Failure FitRes) ->
    Result (option NDArrays * Metrics);
  super_aggregate_evaluate :
    S -> Z -> list (ClientProxy * EvaluateRes) -> list (Failure EvaluateRes) ->
    Result (option Qc * Metrics)
}.

(** ** [RichStrategy] (server.py, lines 64-143) *)

Module RichStrategy.

(** [f"Round {server_round}"]. *)
Definition round_label (server_round : Z) : string :=
  "Round " ++ Fmt.str_of_Z server_round.

(** [len(xs)] as a Python int. *)
Definition len {A : Type} (xs : list A) : Z := Z.of_nat (length xs).

(** The body of the [try] block of lines 92-97: the running totals after
    the loop, or the exception that left it. The guard of line 94 holds for
    every [FitRes], whose [metrics] is a dict. *)
Fixpoint tally_loop (results : list (ClientProxy * FitRes))
    (total_up total_down : Z) : Result (Z * Z) :=
  match results with
  | [] => inr (total_up, total_down)
  | (_, fitres) :: rest =>
      up ← Py.int (Py.get (fit_metrics fitres) "up_bytes"
                     (Py.get (fit_metrics fitres) "bytes" (SInt 0)));
      down ← Py.int (Py.get (fit_metrics fitres) "down_bytes" (SInt 0));
      tally_loop rest (total_up + up) (total_down + down)
  end.

(** Lines 90-100: [(total_up, total_down)]; any exception resets both. *)
Definition byte_tally (results : list (ClientProxy * FitRes)) : Z * Z :=
  match tally_loop results 0 0 with
  | inr totals => totals
  | inl _ => (0, 0)
  end.

(** [total / (1024 * 1024)]. *)
Definition mb (total : Z) : Q := inject_Z total / inject_Z (1024 * 1024).

(** Lines 104-112: the transfer row, when a total is positive. *)
Definition log_transfer (server_round total_up total_down : Z) : UI unit :=
  if bool_decide (0 < total_up) || bool_decide (0 < total_down) then
    let details :=
      app
        (if bool_decide (0 < total_up)
         then ["[blue]↑ updates[/blue] ~[bold]" ++ Fmt.format_fixed 2 (mb total_up) ++ " MB[/bold]"]
         else [])
        (if bool_decide (0 < total_down)
         then ["[green]↓ params[/green] ~[bold]" ++ Fmt.format_fixed 2 (mb total_down) ++ " MB[/bold]"]
         else []) in
    ServerUI.log (round_label server_round) (Py.join " | " details)
  else mret tt.

(** Lines 115-119: the warning row, when [failures] is not empty. *)
Definition log_failures {R : Type} (server_round : Z) (failures : list (Failure R)) : UI unit :=
  match failures with
  | [] => mret tt
  | _ :: _ =>
      ServerUI.log (round_label server_round)
        ("[yellow]Warning: " ++ Fmt.str_of_Z (len failures) ++ " clients failed.[/yellow]")
  end.

Section methods.
Context {S : Type} `{Strategy S} (self : S).

Definition aggregate_fit (server_round : Z)
    (results : list (ClientProxy * FitRes)) (failures : list (Failure FitRes))
    : UI (option NDArrays * Metrics) :=
  match results with
  | [] =>
      ServerUI.log (round_label server_round) "[red]No results received from clients.[/red]";;
      mret (None, ∅)
  | _ :: _ =>
      ServerUI.log (round_label server_round)
        ("Aggregating results from " ++ Fmt.str_of_Z (len results) ++ " clients...");;
      let '(total_up, total_down) := byte_tally results in
      aggregated ← lift (super_aggregate_fit self server_round results failures);
      log_transfer server_round total_up total_down;;
      log_failures server_round failures;;
      mret aggregated
  end.

Definition aggregate_evaluate (server_round : Z)
    (results : list (ClientProxy * EvaluateRes)) (failures : list (Failure EvaluateRes))
    : UI (option Qc * Metrics) :=
  match results with
  | [] =>
      ServerUI.log (round_label server_round) "[red]No evaluation results.[/red]";;
      mret (None, ∅)
  | _ :: _ =>
      '(loss, metrics) ← lift (super_aggregate_evaluate self server_round results failures);
      if bool_decide (metrics ≠ ∅) && bool_decide ("accuracy" ∈ dom metrics) then
        accuracy ← lift (Py.getitem metrics "accuracy");
        ServerUI.log (round_label server_round)
          ("AGGREGATED ACCURACY: [bold cyan]" ++ Py.format_f 4 accuracy ++ "[/bold cyan]");;
        mret (loss, {["accuracy" := accuracy]})
      else
        ServerUI.log (round_label server_round) "[yellow]No accuracy metrics available.[/yellow]";;
        mret (loss, metrics)
  end.

End methods.

End RichStrategy.

(** ** Flower's [FedAvg], the parent class of [RichStrategy] *)

Module FedAvg.

(** Modelled from the spec: the constructor arguments of Flower's [FedAvg],
    which is not among the repository's sources. [RichStrategy.__init__]
    forwards its keyword arguments to it; an argument that is left out
    takes the framework's default ([accept_failures] is on, no metrics
    aggregation function is installed). *)
Record t : Type := mk {
  min_fit_clients : Z;
  min_evaluate_clients : Z;
  min_available_clients : Z;
  accept_failures : bool;
  fit_metrics_aggregation_fn : option (list (Z * Metrics) -> Metrics);
  evaluate_metrics_aggregation_fn : option (list (Z * Metrics) -> Metrics)
}.

(** Modelled from the spec: the sum of all example_counts of the round,
    [sum(num_examples for (_, num_examples) in results)]. *)
Definition num_examples_total {A : Type} (results : list (A * Z)) : Z :=
  foldr Z.add 0 (map snd results).

(** Modelled from the spec: the layers at one position of every client,
    Python's [zip] over the unpacked [lists]: the tuples of the elements at
    one position, as long as every list has that position; no tuple at all
    without lists. *)
Fixpoint zip_star {A : Type} (lists : list (list A)) : list (list A) :=
  match lists with
  | [] => []
  | l :: rest =>
      match rest with
      | [] => map (fun x => [x]) l
      | _ :: _ => zip_with cons l (zip_star rest)
      end
  end.

(** Modelled from the spec: the sum over the clients,
    [reduce(np.add, layer_updates)]. *)
Definition reduce_add (layer_updates : list NDArray) : Result NDArray :=
  match layer_updates with
  | [] => inl TypeError
  | a :: rest => foldl (fun acc b => x ← acc; np.add x b) (inr a) rest
  end.

(** Modelled from the spec: a list comprehension [[f(x) for x in xs]],
    stopping at the first exception. *)
Fixpoint traverse {A B : Type} (f : A -> Result B) (xs : list A) : Result (list B) :=
  match xs with
  | [] => inr []
  | x :: rest => y ← f x; ys ← traverse f rest; mret (y :: ys)
  end.

(** Modelled from the spec: the framework's federated-averaging rule (the
    weighted average of all ParameterSets, each weighted by its
    example_count over the sum of the round's example_counts), computed
    the way Flower's [aggregate] does: every layer is scaled by its
    client's example count, the scaled layers at one position are added
    up, and the sum is divided by the total count. *)
Definition aggregate (results : list (NDArrays * Z)) : Result NDArrays :=
  let total := num_examples_total results in
  let weighted_weights :=
    map (fun '(weights, num_examples) =>
           map (fun layer => np.multiply layer (Qc_of_Z num_examples)) weights)
        results in
  traverse (fun layer_updates =>
              s ← reduce_add layer_updates;
              mret (np.divide s (Qc_of_Z total)))
           (zip_star weighted_weights).

(** Modelled from the spec: the loss of a round, the example_count-weighted
    average of the clients' losses (Flower's [weighted_loss_avg]). *)
Definition weighted_loss_avg (results : list (Z * Qc)) : Result Qc :=
  let num_total := foldr Z.add 0 (map fst results) in
  let weighted := map (fun '(num_examples, loss) => Qc_of_Z num_examples * loss)%Qc results in
  if decide (num_total = 0) then inl ZeroDivisionError
  else inr (foldr Qcplus 0%Qc weighted / Qc_of_Z num_total)%Qc.

(** Modelled from the spec: "whatever metrics aggregation produced", the
    installed aggregation function applied to the clients'
    (example_count, metrics) pairs, and the empty map when none is
    installed. *)
Definition aggregate_metrics (fn : option (list (Z * Metrics) -> Metrics))
    (pairs : list (Z * Metrics)) : Metrics :=
  match fn with
  | Some f => f pairs
  | None => ∅
  end.

(** Modelled from the spec: [FedAvg.aggregate_fit]. No results, or
    failures that the strategy does not accept, give no update. *)
Definition aggregate_fit (self : t) (server_round : Z)
    (results : list (ClientProxy * FitRes)) (failures : list (Failure FitRes))
    : Result (option NDArrays * Metrics) :=
  match results with
  | [] => inr (None, ∅)
  | _ :: _ =>
      if negb (accept_failures self) && bool_decide (failures ≠ []) then inr (None, ∅)
      else
        let weights_results :=
          map (fun '(_, fit_res) => (fit_parameters fit_res, fit_num_examples fit_res)) results in
        aggregated ← aggregate weights_results;
        let metrics_aggregated :=
          aggregate_metrics (fit_metrics_aggregation_fn self)
            (map (fun '(_, res) => (fit_num_examples res, fit_metrics res)) results) in
        mret (Some aggregated, metrics_aggregated)
  end.

(** Modelled from the spec: [FedAvg.aggregate_evaluate]. *)
Definition aggregate_evaluate (self : t) (server_round : Z)
    (results : list (ClientProxy * EvaluateRes)) (failures : list (Failure EvaluateRes))
    : Result (option Qc * Metrics) :=
  match results with
  | [] => inr (None, ∅)
  | _ :: _ =>
      if negb (accept_failures self) && bool_decide (failures ≠ []) then inr (None, ∅)
      else
        loss_aggregated ←
          weighted_loss_avg
            (map (fun '(_, res) => (eval_num_examples res, eval_loss res)) results);
        let metrics_aggregated :=
          aggregate_metrics (evaluate_metrics_aggregation_fn self)
            (map (fun '(_, res) => (eval_num_examples res, eval_metrics res)) results) in
        mret (Some loss_aggregated, metrics_aggregated)
  end.

End FedAvg.

#[global] Instance FedAvg_Strategy : Strategy FedAvg.t := {
  super_aggregate_fit := FedAvg.aggregate_fit;
  super_aggregate_evaluate := FedAvg.aggregate_evaluate
}.

(** The strategy that [server.py] builds under [__main__] (lines 148-160):
    [min_clients = 2] for the three thresholds, everything else left to the
    framework's defaults. *)
Definition min_clients : Z := 2.

Definition strategy : FedAvg.t := {|
  FedAvg.min_fit_clients := min_clients;
  FedAvg.min_evaluate_clients := min_clients;
  FedAvg.min_available_clients := min_clients;
  FedAvg.accept_failures := true;
  FedAvg.fit_metrics_aggregation_fn := None;
  FedAvg.evaluate_metrics_aggregation_fn := None
|}.

(** ** The client (client.py) *)

(** An element of the [parameters] list handed to the client: an
    [ndarray], or any other object, on which [w.nbytes] raises. *)
Inductive PyObject : Type :=
| ndarray (a : NDArray)
| other (repr : string).

(** A sample of the data set, pixels scaled to [0, 1], and its digit. *)
Definition Image : Type := list Qc.
Definition Label : Type := Z.

Module Keras.

(** The keyword arguments of [model.fit] that shape the training. *)
Record FitArgs : Type := mk_args {
  epochs : Z;
  batch_size : Z;
  validation_split : Qc
}.

(** The Keras model behind the module-level [model]: what the four
    methods the client calls do to it. *)
Class Model (M : Type) : Type := {
  get_weights : M -> NDArrays;
  set_weights : M -> list PyObject -> Result M;
  fit : M -> list Image -> list Label -> FitArgs -> Result M;
  evaluate : M -> list Image -> list Label -> Result (Qc * Qc)
}.

(** The samples an epoch trains on when [fit] is given [n] samples and a
    [validation_split], the argument line 63 passes: Keras sets the last
    fraction of the samples apart for validation, does not train on it,
    and trains on the first [floor (n * (1 - validation_split))]. *)
Definition training_samples (n : Z) (validation_split : Qc) : Z :=
  Qfloor (inject_Z n * (1 - validation_split)%Qc).

End Keras.

(** A call to the Keras model, as the client issues it. *)
Inductive KerasCall : Type :=
| call_set_weights (parameters : list PyObject)
| call_fit (x : list Image) (y : list Label) (args : Keras.FitArgs)
| call_get_weights
| call_evaluate (x : list Image) (y : list Label).

(** The MNIST arrays loaded at import time (lines 25-26). *)
Record Globals : Type := mk_globals {
  x_train : list Image;
  y_train : list Label;
  x_test : list Image;
  y_test : list Label
}.

(** The state of a client process: the module-level [model], the calls
    made to it so far, and the lines written to the log. *)
Record Process (M : Type) : Type := mk_process {
  model : M;
  calls : list KerasCall;
  log_lines : list string
}.

Arguments mk_process {M} model calls log_lines.
Arguments model {M} p.
Arguments calls {M} p.
Arguments log_lines {M} p.

Module FlowerClient.

Record t : Type := mk { client_id : string }.

(** [sum(w.nbytes for w in ws)], from the running total [acc]. *)
Fixpoint sum_nbytes (acc : Z) (ws : list PyObject) : Result Z :=
  match ws with
  | [] => inr acc
  | ndarray a :: rest => sum_nbytes (acc + np.nbytes a) rest
  | other _ :: _ => inl AttributeError
  end.

(** The [try/except] around the sum (lines 54-57, 67-70, 77-80). *)
Definition count_bytes (ws : list PyObject) : Z :=
  match sum_nbytes 0 ws with
  | inr total => total
  | inl _ => 0
  end.

Section methods.
Context {M : Type} `{Keras.Model M} (globals : Globals).

Definition log_info (line : string) : Eff (Process M) unit :=
  fun p => (inr tt, mk_process (model p) (calls p) (log_lines p ++ [line])%list).

(** [model.set_weights(parameters)]. *)
Definition model_set_weights (parameters : list PyObject) : Eff (Process M) unit :=
  fun p =>
    let trace := (calls p ++ [call_set_weights parameters])%list in
    match Keras.set_weights (model p) parameters with
    | inl e => (inl e, mk_process (model p) trace (log_lines p))
    | inr m => (inr tt, mk_process m trace (log_lines p))
    end.

(** [model.fit(x, y, ...)]. *)
Definition model_fit (x : list Image) (y : list Label) (args : Keras.FitArgs)
    : Eff (Process M) unit :=
  fun p =>
    let trace := (calls p ++ [call_fit x y args])%list in
    match Keras.fit (model p) x y args with
    | inl e => (inl e, mk_process (model p) trace (log_lines p))
    | inr m => (inr tt, mk_process m trace (log_lines p))
    end.

(** [model.get_weights()]. *)
Definition model_get_weights : Eff (Process M) NDArrays :=
  fun p =>
    (inr (Keras.get_weights (model p)),
     mk_process (model p) (calls p ++ [call_get_weights])%list (log_lines p)).

(** [model.evaluate(x, y, verbose=0)]. *)
Definition model_evaluate (x : list Image) (y : list Label) : Eff (Process M) (Qc * Qc) :=
  fun p =>
    (Keras.evaluate (model p) x y,
     mk_process (model p) (calls p ++ [call_evaluate x y])%list (log_lines p)).

(** The arguments of the one training call (line 63). *)
Definition fit_args : Keras.FitArgs :=
  {| Keras.epochs := 1; Keras.batch_size := 32; Keras.validation_split := Q2Qc (1 # 10) |}.

Definition get_parameters (self : t) (config : Metrics) : Eff (Process M) NDArrays :=
  log_info ("[Client " ++ client_id self ++ "] Sending model parameters to the server.");;
  model_get_weights.

Definition fit (self : t) (parameters : list PyObject) (config : Metrics)
    : Eff (Process M) (NDArrays * Z * Metrics) :=
  log_info ("[Client " ++ client_id self
            ++ "] Received parameters from server. Starting local training...");;
  let down_bytes := count_bytes parameters in
  model_set_weights parameters;;
  model_fit (x_train globals) (y_train globals) fit_args;;
  log_info ("[Client " ++ client_id self ++ "] Local training finished.");;
  new_weights ← model_get_weights;
  let up_bytes := count_bytes (map ndarray new_weights) in
  let metrics : Metrics :=
    <["up_bytes" := SInt up_bytes]> (<["down_bytes" := SInt down_bytes]> ∅) in
  mret (new_weights, Z.of_nat (length (x_train globals)), metrics).

Definition evaluate (self : t) (parameters : list PyObject) (config : Metrics)
    : Eff (Process M) (Qc * Z * Metrics) :=
  log_info ("[Client " ++ client_id self ++ "] Received parameters for evaluation.");;
  let down_bytes := count_bytes parameters in
  model_set_weights parameters;;
  '(loss, accuracy) ← model_evaluate (x_test globals) (y_test globals);
  log_info ("[Client " ++ client_id self ++ "] Evaluation complete. "
            ++ "Accuracy: [bold cyan]" ++ Fmt.format_fixed 4 accuracy ++ "[/bold cyan]");;
  let metrics : Metrics :=
    <["accuracy" := SFloat (finite accuracy)]> (<["down_bytes" := SInt down_bytes]> ∅) in
  mret (loss, Z.of_nat (length (x_test globals)), metrics).

End methods.

End FlowerClient.

(** The byte size of a ParameterSet on the wire: the bytes of its arrays'
    elements. *)
Definition serialized_size (ps : NDArrays) : Z :=
  foldr Z.add 0 (map np.nbytes ps).

(** ** Vocabulary of the statements *)

(** The rows a run adds to the table. *)
Definition logged {A : Type} (m : UI A) (ui : ServerUI) : list (string * string) :=
  drop (length (table ui)) (table (m ui).2).

(** What an empty round logs (lines 80 and 129). *)
Definition no_fit_results : string := "[red]No results received from clients.[/red]".
Definition no_evaluate_results : string := "[red]No evaluation results.[/red]".

(** The row that opens a round with results (lines 83-86). *)
Definition aggregating_row {A : Type} (r : Z) (results : list A) : string * string :=
  (RichStrategy.round_label r,
   "Aggregating results from " ++ Fmt.str_of_Z (RichStrategy.len results) ++ " clients...").

(** The transfer row of a round, if it has one. *)
Definition transfer_rows (r : Z) (results : list (ClientProxy * FitRes)) : list (string * string) :=
  let '(total_up, total_down) := RichStrategy.byte_tally results in
  logged (RichStrategy.log_transfer r total_up total_down) (mk_ui []).

(** The row that reports the failures of a round (lines 115-119). *)
Definition warning_row {R : Type} (r : Z) (failures : list (Failure R)) : string * string :=
  (RichStrategy.round_label r,
   "[yellow]Warning: " ++ Fmt.str_of_Z (RichStrategy.len failures) ++ " clients failed.[/yellow]").

(** The warning row of a round, if it has one. *)
Definition failure_rows {R : Type} (r : Z) (failures : list (Failure R)) : list (string * string) :=
  match failures with
  | [] => []
  | _ :: _ => [warning_row r failures]
  end.

(** The row that reports the aggregated accuracy (lines 136-139). *)
Definition accuracy_row (r : Z) (accuracy : Scalar) : string * string :=
  (RichStrategy.round_label r,
   "AGGREGATED ACCURACY: [bold cyan]" ++ Py.format_f 4 accuracy ++ "[/bold cyan]").

(** The row that reports that no accuracy is available (line 142). *)
Definition no_accuracy_row (r : Z) : string * string :=
  (RichStrategy.round_label r, "[yellow]No accuracy metrics available.[/yellow]").

(** ** Sample rounds *)

Module Sample.

(** A float32 vector. *)
Definition vector (xs : list Q) : NDArray :=
  {| dtype := float32; shape := [length xs]; data := map Q2Qc xs |}.

Definition client (id : string) : ClientProxy := {| cid := id |}.

(** An evaluate answer as client.py builds it: the loss, the size of the
    test set, and the metrics "accuracy" and "down_bytes". *)
Definition evaluate_res (loss accuracy : Q) (examples down_bytes : Z) : EvaluateRes :=
  {| eval_loss := Q2Qc loss;
     eval_num_examples := examples;
     eval_metrics :=
       <["accuracy" := SFloat (finite (Q2Qc accuracy))]> (<["down_bytes" := SInt down_bytes]> ∅) |}.

Definition evaluate_results : list (ClientProxy * EvaluateRes) :=
  [ (client "0", evaluate_res (1 # 2) (9 # 10) 10 120);
    (client "1", evaluate_res (1 # 4) (8 # 10) 30 120) ].

(** A metrics aggregation function: the first client's metrics. *)
Definition first_metrics (pairs : list (Z * Metrics)) : Metrics :=
  match pairs with
  | [] => ∅
  | (_, metrics) :: _ => metrics
  end.

(** A strategy like the server's, with that function installed for the
    evaluate metrics. *)
Definition strategy_with_metrics : FedAvg.t := {|
  FedAvg.min_fit_clients := min_clients;
  FedAvg.min_evaluate_clients := min_clients;
  FedAvg.min_available_clients := min_clients;
  FedAvg.accept_failures := true;
  FedAvg.fit_metrics_aggregation_fn := None;
  FedAvg.evaluate_metrics_aggregation_fn := Some first_metrics
|}.

(** The weighted loss of [evaluate_results]: (10 * 1/2 + 30 * 1/4) / 40. *)
Definition evaluate_loss : Qc :=
  ((Qc_of_Z 10 * Q2Qc (1 # 2) + (Qc_of_Z 30 * Q2Qc (1 # 4) + 0)) / Qc_of_Z 40)%Qc.

End Sample.

Module SampleFit.

(** A fit answer as client.py builds it: the weights, the size of the
    training set, and the metrics "up_bytes" and "down_bytes". *)
Definition fit_res (weights : list (list Q)) (examples : Z) : FitRes :=
  let arrays := map Sample.vector weights in
  {| fit_parameters := arrays;
     fit_num_examples := examples;
     fit_metrics :=
       <["up_bytes" := SInt (foldr Z.add 0 (map np.nbytes arrays))]>
         (<["down_bytes" := SInt (foldr Z.add 0 (map np.nbytes arrays))]> ∅) |}.

(** Three clients with distinct example counts, two layers each. *)
Definition first : ClientProxy * FitRes := (Sample.client "0", fit_res [[1; 2]; [3]]%Q 1).
Definition second : ClientProxy * FitRes := (Sample.client "1", fit_res [[4; 5]; [6]]%Q 2).
Definition third : ClientProxy * FitRes := (Sample.client "2", fit_res [[7; 8]; [9]]%Q 3).

Definition results : list (ClientProxy * FitRes) := [first; second; third].

(** One client that did not answer. *)
Definition failures : list (Failure FitRes) := [failed_exception (OtherError "deadline exceeded")].

(** A round in which the second client reports a transfer size that is
    not a number. *)
Definition broken : list (ClientProxy * FitRes) :=
  [ first;
    (Sample.client "1",
     {| fit_parameters := [Sample.vector [4; 5]%Q; Sample.vector [6]%Q];
        fit_num_examples := 2;
        fit_metrics := <["up_bytes" := SFloat nan]> (<["down_bytes" := SInt 12]> ∅) |}) ].

End SampleFit.

(** ** The averaging rule in the specification's words *)

(** An array without elements. *)
Definition empty_array : NDArray := {| dtype := float32; shape := [0%nat]; data := [] |}.

(** Element [i] of layer [l] of a ParameterSet ([0] where it has none). *)
Definition element (ps : NDArrays) (l i : nat) : Qc :=
  nth i (data (nth l ps empty_array)) 0%Qc.

(** The layout of a ParameterSet: the shape and the element count of
    every layer. *)
Definition architecture (ps : NDArrays) : list (list nat * nat) :=
  map (fun a => (shape a, length (data a))) ps.

(** The sum of the example counts of a round. *)
Definition example_total (results : list (ClientProxy * FitRes)) : Z :=
  foldr Z.add 0 (map (fun cr => fit_num_examples cr.2) results).

(** A client's weight: its example count over the round's total. *)
Definition client_weight (results : list (ClientProxy * FitRes)) (cr : ClientProxy * FitRes) : Qc :=
  (Qc_of_Z (fit_num_examples cr.2) / Qc_of_Z (example_total results))%Qc.

(** The sum of a list of rationals. *)
Definition sum_Qc (xs : list Qc) : Qc := foldr Qcplus 0%Qc xs.

(** [new_weight[i] = sum over clients c of
    (example_count[c] / sum example_count) * weight[i][c]], for element [i]
    of layer [l]. *)
Definition weighted_average (results : list (ClientProxy * FitRes)) (l i : nat) : Qc :=
  sum_Qc (map (fun cr => client_weight results cr * element (fit_parameters cr.2) l i)%Qc results).

(** One step of [reduce(np.add, ...)]. *)
Definition add_step (acc : Result NDArray) (b : NDArray) : Result NDArray :=
  x ← acc; np.add x b.

(** The ParameterSet of an outcome of [aggregate_fit], without the metrics. *)
Definition parameters_of (outcome : Result (option NDArrays * Metrics)) : Result (option NDArrays) :=
  match outcome with
  | inl e => inl e
  | inr (parameters, _) => inr parameters
  end.

(** The (weights, example count) pairs [FedAvg.aggregate_fit] averages. *)
Definition weights_results (results : list (ClientProxy * FitRes)) : list (NDArrays * Z) :=
  map (fun '(_, fit_res) => (fit_parameters fit_res, fit_num_examples fit_res)) results.

(** What [FedAvg.aggregate] does with the layers at one position. *)
Definition average_layer (total : Z) (layer_updates : list NDArray) : Result NDArray :=
  s ← FedAvg.reduce_add layer_updates; mret (np.divide s (Qc_of_Z total)).

(** A client's layers, each scaled by the client's example count. *)
Definition scale_layers (wn : NDArrays * Z) : NDArrays :=
  map (fun layer => np.multiply layer (Qc_of_Z wn.2)) wn.1.

Module SampleRound.

(** The layout of the sample clients' ParameterSets: a vector of two
    elements and a vector of one. *)
Definition arch : list (list nat * nat) := [([2%nat], 2%nat); ([1%nat], 1%nat)].

(** The sample results in another order. *)
Definition shuffled : list (ClientProxy * FitRes) :=
  [SampleFit.third; SampleFit.first; SampleFit.second].

(** The hand-computed weighted mean of the three sample clients, with
    weights 1/6, 2/6 and 3/6: (1 + 8 + 21) / 6, (2 + 10 + 24) / 6 and
    (3 + 12 + 27) / 6. *)
Definition hand_computed : NDArrays := [Sample.vector [5; 6]%Q; Sample.vector [7]%Q].

End SampleRound.

(** ** Vocabulary of byte counting *)

(** The scalar line 96 converts: "up_bytes", else "bytes", else 0. *)
Definition up_value (res : FitRes) : Scalar :=
  Py.get (fit_metrics res) "up_bytes" (Py.get (fit_metrics res) "bytes" (SInt 0)).

(** The scalar line 97 converts: "down_bytes", else 0. *)
Definition down_value (res : FitRes) : Scalar :=
  Py.get (fit_metrics res) "down_bytes" (SInt 0).

(** The scalars on which [int()] raises. *)
Definition unconvertible (x : Scalar) : Prop :=
  match x with
  | SFloat nan | SFloat (inf _) => True
  | _ => False
  end.

(** The objects on which [.nbytes] raises. *)
Definition has_no_nbytes (w : PyObject) : Prop :=
  match w with
  | ndarray _ => False
  | other _ => True
  end.

(** The calls one [fit] makes to the model (lines 60-65). *)
Definition fit_calls (globals : Globals) (parameters : list PyObject) : list KerasCall :=
  [ call_set_weights parameters;
    call_fit (x_train globals) (y_train globals) FlowerClient.fit_args;
    call_get_weights ].

(** The calls one [evaluate] makes to the model (lines 82-83). *)
Definition evaluate_calls (globals : Globals) (parameters : list PyObject) : list KerasCall :=
  [ call_set_weights parameters;
    call_evaluate (x_test globals) (y_test globals) ].

(** ** A stand-in Keras model for the sample runs *)

Module Toy.

(** What [set_weights] makes of an object: the array itself, and an empty
    array for anything else. *)
Definition as_array (w : PyObject) : NDArray :=
  match w with
  | ndarray a => a
  | other _ => empty_array
  end.

(** The state of the stand-in is its list of weights. [set_weights] wants
    as many objects as the model has weights; an epoch of [fit] halves
    every weight; [evaluate] reports a loss of 1/4 and an accuracy of 3/4. *)
#[global] Instance keras : Keras.Model NDArrays := {
  Keras.get_weights m := m;
  Keras.set_weights m ws :=
    if decide (length ws = length m) then inr (map as_array ws) else inl ValueError;
  Keras.fit m x y args := inr (map (fun a => np.multiply a (Q2Qc (1 # 2))) m);
  Keras.evaluate m x y := inr (Q2Qc (1 # 4), Q2Qc (3 # 4))
}.

(** Two float32 arrays of 10 and 20 elements. *)
Definition ten : NDArray :=
  {| dtype := float32; shape := [10%nat]; data := repeat (Q2Qc 1) 10 |}.
Definition twenty : NDArray :=
  {| dtype := float32; shape := [4%nat; 5%nat]; data := repeat (Q2Qc 2) 20 |}.

Definition parameters : list PyObject := [ndarray ten; ndarray twenty].

(** The same ParameterSet with a second element that is no array. *)
Definition odd_parameters : list PyObject := [ndarray ten; other "[2.0, 2.0]"].

(** A local partition of ten training and three test samples. *)
Definition globals : Globals := {|
  x_train := repeat [Q2Qc 0] 10;
  y_train := repeat 7%Z 10;
  x_test := repeat [Q2Qc 1] 3;
  y_test := repeat 7%Z 3
|}.

(** A client process whose model holds two zero arrays. *)
Definition process : Process NDArrays := {|
  model := [np.multiply ten 0%Qc; np.multiply twenty 0%Qc];
  calls := [];
  log_lines := []
|}.

Definition client : FlowerClient.t := {| FlowerClient.client_id := "0" |}.

End Toy.

(** The integer [int()] makes of a scalar ([0] where it raises). *)
Definition converted (x : Scalar) : Z :=
  match Py.int x with
  | inr z => z
  | inl _ => 0
  end.

(** The bytes the clients of a round report as sent up and down. *)
Definition reported_up (results : list (ClientProxy * FitRes)) : Z :=
  foldr Z.add 0 (map (fun cr => converted (up_value cr.2)) results).
Definition reported_down (results : list (ClientProxy * FitRes)) : Z :=
  foldr Z.add 0 (map (fun cr => converted (down_value cr.2)) results).

Module SampleErrors.

(** A fit round whose second client sends a first layer of three elements
    where the first client sends two. *)
Definition mismatched : list (ClientProxy * FitRes) :=
  [ SampleFit.first; (Sample.client "1", SampleFit.fit_res [[4; 5; 6]; [7]]%Q 2) ].

(** An evaluate round whose clients report no examples at all. *)
Definition no_examples : list (ClientProxy * EvaluateRes) :=
  [ (Sample.client "0", Sample.evaluate_res (1 # 2) (9 # 10) 0 120) ].

End SampleErrors.

(** A fit answer that a run of [FlowerClient.fit] returned. *)
Definition answered_by_fit (M : Type) `{Keras.Model M} (res : FitRes) : Prop :=
  exists globals self parameters config (p p' : Process M),
    FlowerClient.fit globals self parameters config p =
      (inr (fit_parameters res, fit_num_examples res, fit_metrics res), p').

Module SampleAnswer.

(** What the sample client answers to [Toy.parameters]: the halved
    weights, its ten training samples, and 120 bytes each way. *)
Definition res : FitRes := {|
  fit_parameters := [np.multiply Toy.ten (Q2Qc (1 # 2)); np.multiply Toy.twenty (Q2Qc (1 # 2))];
  fit_num_examples := 10;
  fit_metrics := <["up_bytes" := SInt 120]> (<["down_bytes" := SInt 120]> ∅)
|}.

Definition results : list (ClientProxy * FitRes) :=
  [(Sample.client "0", res); (Sample.client "1", res)].

End SampleAnswer.

(** A stand-in model like [Toy.keras] whose training call raises. *)
Module Stuck.

Record t : Type := mk { weights : NDArrays }.

#[global] Instance keras : Keras.Model t := {
  Keras.get_weights m := weights m;
  Keras.set_weights m ws :=
    if decide (length ws = length (weights m)) then inr (mk (map Toy.as_array ws))
    else inl ValueError;
  Keras.fit m x y args := inl (OtherError "out of memory");
  Keras.evaluate m x y := inr (Q2Qc (1 # 4), Q2Qc (3 # 4))
}.

Definition process : Process t := {|
  model := mk [np.multiply Toy.ten 0%Qc; np.multiply Toy.twenty 0%Qc];
  calls := [];
  log_lines := []
|}.

End Stuck.

(** ** The two programs *)

Module os.

(** [os.environ.get(key, default)]. *)
Definition environ_get (environ : gmap string string) (key fallback : string) : string :=
  match environ !! key with
  | Some value => value
  | None => fallback
  end.

End os.

(** The level of a record sent to the standard logger. *)
Inductive Level : Type := INFO | ERROR.

(** The server program (server.py, lines 145-169). [start_server] is the
    framework's entry point: it is given the address, the number of
    rounds and the strategy, drives the rounds, which log to the table,
    and may raise. [str] renders an exception as [str(e)] does. *)
Module Server.

Definition num_rounds : Z := 3.

(** Lines 146-147. *)
Definition server_address (environ : gmap string string) : string :=
  "0.0.0.0:" ++ os.environ_get environ "FLOWER_PORT" "8080".

(** [ServerUI.__exit__]: the record it sends to the standard logger,
    given the exception that left the [with] block, if any. *)
Definition exit_record (exc : option Exn) : Level * string :=
  match exc with
  | Some _ => (ERROR, "Server shut down due to an error.")
  | None => (INFO, "✅ Server has shut down gracefully.")
  end.

Section main.
Context {A : Type} (start_server : string -> Z -> FedAvg.t -> UI A) (str : Exn -> string).

(** The body of the [with] block (lines 152-169). *)
Definition serve (environ : gmap string string) : UI unit :=
  ServerUI.log "Server Setup" ("Listening on " ++ server_address environ);;
  ServerUI.log "Server Setup"
    ("Waiting for " ++ Fmt.str_of_Z min_clients ++ " clients to connect...");;
  ((fun ui =>
      match start_server (server_address environ) num_rounds strategy ui with
      | (inr _, ui') => (inr tt, ui')
      | (inl e, ui') => ServerUI.log "[bold red]FATAL ERROR[/bold red]" (str e) ui'
      end) : UI unit).

(** [with ServerUI() as ui: ...]: the outcome of the block, the table of
    the fresh [ServerUI], and the record [__exit__] logs. *)
Definition main (environ : gmap string string) : Result unit * ServerUI * (Level * string) :=
  let '(outcome, ui) := serve environ (mk_ui []) in
  (outcome, ui,
   exit_record match outcome with
               | inl e => Some e
               | inr _ => None
               end).

End main.


End Server.

(** The client program (client.py, lines 21-27 and 91-107). *)
Module Client.

(** Lines 25-26: the MNIST arrays as loaded, pixels in 0..255, with the
    images scaled by [1 / 255.0]. *)
Definition scale (image : list Z) : Image :=
  map (fun pixel => Qc_of_Z pixel / Qc_of_Z 255)%Qc image.

Definition load (x_train_raw : list (list Z)) (y_train_raw : list Label)
    (x_test_raw : list (list Z)) (y_test_raw : list Label) : Globals :=
  {| x_train := map scale x_train_raw;
     y_train := y_train_raw;
     x_test := map scale x_test_raw;
     y_test := y_test_raw |}.

(** Line 95. *)
Definition server_address (environ : gmap string string) : string :=
  os.environ_get environ "FLOWER_SERVER_HOST" "127.0.0.1"
  ++ ":" ++ os.environ_get environ "FLOWER_SERVER_PORT" "8080".

(** Line 94. *)
Definition client_id (environ : gmap string string) : string :=
  os.environ_get environ "CLIENT_ID" "0".

Section main.
Context {M : Type} `{Keras.Model M}
  (start_numpy_client : string -> FlowerClient.t -> Eff (Process M) unit)
  (str : Exn -> string).

(** [log.error(line, exc_info=True)]: the log lines keep no level and no
    traceback. *)
Definition log_error (line : string) : Eff (Process M) unit :=
  FlowerClient.log_info line.

(** Lines 91-107. [start_numpy_client] is the framework's entry point: it
    connects, serves the server's calls with the client's methods, which
    work on the process, and may raise. *)
Definition main (environ : gmap string string) : Eff (Process M) unit :=
  FlowerClient.log_info ("Starting Flower client " ++ client_id environ ++ "...");;
  FlowerClient.log_info ("Attempting to connect to server at [bold green]"
                         ++ server_address environ ++ "[/bold green]");;
  ((fun p =>
      match start_numpy_client (server_address environ)
              {| FlowerClient.client_id := client_id environ |} p with
      | (inr _, p') =>
          FlowerClient.log_info ("Client " ++ client_id environ ++ " disconnected.") p'
      | (inl e, p') =>
          log_error ("[Client " ++ client_id environ ++ "] Connection failed: " ++ str e) p'
      end) : Eff (Process M) unit).

End main.

End Client.

(** Sample entry points of the framework. *)
Module SampleRun.




(** [str(e)] for the exceptions of the samples. *)
Definition str (e : Exn) : string :=
  match e with
  | OtherError msg => msg
  | _ => ""
  end.

End SampleRun.






Module SampleData.

(** Two raw training images of three pixels and one raw test image. *)
Definition x_train_raw : list (list Z) := [[0; 128; 255]; [51; 0; 204]].
Definition y_train_raw : list Label := [5; 0].
Definition x_test_raw : list (list Z) := [[255; 255; 0]].
Definition y_test_raw : list Label := [7].

End SampleData.

(** * Properties *)

#[local] Open Scope list_scope.

Ltac run_eff :=
  unfold mbind, mret, Eff_bind, Eff_ret, Result_bind, Result_ret, lift, ServerUI.log;
  simpl.

Lemma drop_table {A : Type} (t rows : list A) : drop (length t) (t ++ rows) = rows.
Proof. by rewrite drop_app_length. Qed.

(** ** The wrapper hands back what the parent class computes *)

Section wrapper.
Context {S : Type} `{Strategy S} (self : S).

Lemma log_transfer_run r up down ui :
  RichStrategy.log_transfer r up down ui =
    (inr tt, mk_ui (table ui ++ logged (RichStrategy.log_transfer r up down) (mk_ui []))).
Proof.
  unfold logged, RichStrategy.log_transfer.
  destruct (bool_decide (0 < up) || bool_decide (0 < down)); simpl; [reflexivity|].
  rewrite app_nil_r. by destruct ui.
Qed.

Lemma log_failures_run {R : Type} r (failures : list (Failure R)) ui :
  RichStrategy.log_failures r failures ui =
    (inr tt, mk_ui (table ui ++ failure_rows r failures)).
Proof.
  destruct failures; simpl; [|reflexivity].
  rewrite app_nil_r. by destruct ui.
Qed.

(** One run of [aggregate_fit] on a round with results: the opening row,
    the parent's aggregation, and, when that returns, the transfer row and
    the warning row. *)
Lemma aggregate_fit_run r x rest failures ui :
  RichStrategy.aggregate_fit self r (x :: rest) failures ui =
    match super_aggregate_fit self r (x :: rest) failures with
    | inl e => (inl e, mk_ui (table ui ++ [aggregating_row r (x :: rest)]))
    | inr aggregated =>
        (inr aggregated,
         mk_ui (table ui ++ aggregating_row r (x :: rest)
                  :: transfer_rows r (x :: rest) ++ failure_rows r failures))
    end.
Proof.
  unfold RichStrategy.aggregate_fit, transfer_rows. run_eff.
  destruct (RichStrategy.byte_tally (x :: rest)) as [up down].
  run_eff.
  destruct (super_aggregate_fit self r (x :: rest) failures) as [e|agg]; [reflexivity|].
  rewrite log_transfer_run, log_failures_run. simpl.
  by rewrite <- !app_assoc.
Qed.

Lemma aggregate_fit_returns_super r x rest failures ui :
  (RichStrategy.aggregate_fit self r (x :: rest) failures ui).1 =
  super_aggregate_fit self r (x :: rest) failures.
Proof.
  rewrite aggregate_fit_run.
  by destruct (super_aggregate_fit self r (x :: rest) failures).
Qed.

Lemma transfer_rows_not_red r results :
  Forall (fun row => row.2 <> no_fit_results) (transfer_rows r results).
Proof.
  unfold transfer_rows.
  destruct (RichStrategy.byte_tally results) as [up down].
  unfold logged, RichStrategy.log_transfer.
  destruct (bool_decide (0 < up)), (bool_decide (0 < down)); simpl;
    repeat constructor; simpl; discriminate.
Qed.

End wrapper.

(** ** Empty rounds *)

Section empty_rounds.
Context {S : Type} `{Strategy S} (self : S).

Lemma aggregate_fit_rows r x rest failures ui :
  Forall (fun row => row.2 <> no_fit_results)
    (logged (RichStrategy.aggregate_fit self r (x :: rest) failures) ui).
Proof.
  unfold logged. rewrite aggregate_fit_run.
  assert (Hfirst : (aggregating_row r (x :: rest)).2 <> no_fit_results)
    by (simpl; discriminate).
  destruct (super_aggregate_fit self r (x :: rest) failures) as [e|agg]; simpl.
  - rewrite drop_table. by constructor.
  - rewrite drop_table. constructor; [exact Hfirst|].
    apply Forall_app. split; [apply transfer_rows_not_red|].
    destruct failures; repeat constructor. simpl. discriminate.
Qed.

Lemma aggregate_evaluate_rows r x rest failures ui :
  Forall (fun row => row.2 <> no_evaluate_results)
    (logged (RichStrategy.aggregate_evaluate self r (x :: rest) failures) ui).
Proof.
  unfold logged, RichStrategy.aggregate_evaluate. run_eff.
  destruct (super_aggregate_evaluate self r (x :: rest) failures) as [e|[loss metrics]].
  - simpl. rewrite drop_all. constructor.
  - destruct (bool_decide (metrics ≠ ∅) && bool_decide ("accuracy" ∈ dom metrics)).
    + run_eff. destruct (Py.getitem metrics "accuracy") as [e|acc].
      * simpl. rewrite drop_all. constructor.
      * simpl. rewrite drop_table. repeat constructor. simpl. discriminate.
    + run_eff. rewrite drop_table. repeat constructor. simpl. discriminate.
Qed.

(** C3. On an empty [results] list [aggregate_fit] returns [(None, {})] and
    [aggregate_evaluate] returns [(None, {})]: no update, no loss, an empty
    metrics map, and no exception, whatever the parent class and the
    failures are. Each logs exactly one row ("No results received from
    clients." / "No evaluation results."), and a round that has results,
    with or without failures, never logs that row. *)
Theorem empty_results_sentinel (r : Z) (ui : ServerUI)
    (fit_failures : list (Failure FitRes)) (evaluate_failures : list (Failure EvaluateRes)) :
  RichStrategy.aggregate_fit self r [] fit_failures ui =
    (inr (None, ∅), mk_ui (table ui ++ [(RichStrategy.round_label r, no_fit_results)])) /\
  RichStrategy.aggregate_evaluate self r [] evaluate_failures ui =
    (inr (None, ∅), mk_ui (table ui ++ [(RichStrategy.round_label r, no_evaluate_results)])) /\
  (forall x rest failures ui0,
     Forall (fun row => row.2 <> no_fit_results)
       (logged (RichStrategy.aggregate_fit self r (x :: rest) failures) ui0)) /\
  (forall x rest failures ui0,
     Forall (fun row => row.2 <> no_evaluate_results)
       (logged (RichStrategy.aggregate_evaluate self r (x :: rest) failures) ui0)).
Proof.
  split; [reflexivity|]. split; [reflexivity|]. split.
  - intros x rest failures ui0. apply aggregate_fit_rows.
  - intros x rest failures ui0. apply aggregate_evaluate_rows.
Qed.

End empty_rounds.

(** ** The accuracy gate of [aggregate_evaluate] *)

Section accuracy_gate.
Context {S : Type} `{Strategy S} (self : S).

Lemma accuracy_gate_true (metrics : Metrics) accuracy :
  metrics !! "accuracy" = Some accuracy ->
  bool_decide (metrics ≠ ∅) && bool_decide ("accuracy" ∈ dom metrics) = true.
Proof.
  intros Hacc. apply andb_true_iff. split; apply bool_decide_eq_true.
  - intros ->. by rewrite lookup_empty in Hacc.
  - apply elem_of_dom. by exists accuracy.
Qed.

Lemma accuracy_gate_false (metrics : Metrics) :
  metrics !! "accuracy" = None ->
  bool_decide (metrics ≠ ∅) && bool_decide ("accuracy" ∈ dom metrics) = false.
Proof.
  intros Hacc. apply andb_false_iff. right. apply bool_decide_eq_false.
  rewrite elem_of_dom, Hacc. by intros [? ?].
Qed.

Lemma aggregate_evaluate_gate r x rest failures ui loss metrics :
  super_aggregate_evaluate self r (x :: rest) failures = inr (loss, metrics) ->
  RichStrategy.aggregate_evaluate self r (x :: rest) failures ui =
    match metrics !! "accuracy" with
    | Some accuracy =>
        (inr (loss, {["accuracy" := accuracy]}), mk_ui (table ui ++ [accuracy_row r accuracy]))
    | None =>
        (inr (loss, metrics), mk_ui (table ui ++ [no_accuracy_row r]))
    end.
Proof.
  intros Hsuper. unfold RichStrategy.aggregate_evaluate. run_eff. rewrite Hsuper.
  destruct (metrics !! "accuracy") as [accuracy|] eqn:Hacc.
  - rewrite (accuracy_gate_true _ _ Hacc). run_eff.
    unfold Py.getitem. rewrite Hacc. reflexivity.
  - rewrite (accuracy_gate_false _ Hacc). reflexivity.
Qed.

(** C10. When the parent's aggregation returns a metrics map that holds
    the key "accuracy" (such a map is not empty), the metrics map that
    [aggregate_evaluate] returns holds that key with the same value and no
    other key: every other entry of the aggregated map is dropped. The loss
    is handed back unchanged. *)
Theorem accuracy_is_the_only_key_returned r x rest failures ui loss (metrics : Metrics) accuracy :
  super_aggregate_evaluate self r (x :: rest) failures = inr (loss, metrics) ->
  metrics !! "accuracy" = Some accuracy ->
  exists returned : Metrics,
    (RichStrategy.aggregate_evaluate self r (x :: rest) failures ui).1 = inr (loss, returned) /\
    returned !! "accuracy" = Some accuracy /\
    dom returned = {["accuracy"]} /\
    (forall key, key <> "accuracy" -> returned !! key = None).
Proof.
  intros Hsuper Hacc.
  rewrite (aggregate_evaluate_gate _ _ _ _ _ _ _ Hsuper), Hacc. simpl.
  exists {["accuracy" := accuracy]}. split; [reflexivity|]. split; [|split].
  - apply lookup_singleton_eq.
  - apply dom_singleton_L.
  - intros key Hkey. by apply lookup_singleton_ne.
Qed.

(** C2, as the code has it. For a non-empty list of EvaluateResults on
    which the parent's aggregation returns [(loss, metrics)]: when the
    aggregated map [metrics] holds the key "accuracy", [aggregate_evaluate]
    reports that aggregated value as the round's accuracy, logs it in one
    "AGGREGATED ACCURACY" row and returns it as the only metric; when the
    aggregated map does not hold the key, it returns the aggregated map as
    it is and logs one "No accuracy metrics available." row. The gate is
    the aggregated map, not the clients' own metrics. *)
Theorem accuracy_surfaced_from_aggregated_metrics r x rest failures ui loss (metrics : Metrics) :
  super_aggregate_evaluate self r (x :: rest) failures = inr (loss, metrics) ->
  (forall accuracy,
     metrics !! "accuracy" = Some accuracy ->
     RichStrategy.aggregate_evaluate self r (x :: rest) failures ui =
       (inr (loss, {["accuracy" := accuracy]}),
        mk_ui (table ui ++ [accuracy_row r accuracy]))) /\
  (metrics !! "accuracy" = None ->
     RichStrategy.aggregate_evaluate self r (x :: rest) failures ui =
       (inr (loss, metrics), mk_ui (table ui ++ [no_accuracy_row r]))).
Proof.
  intros Hsuper.
  rewrite (aggregate_evaluate_gate _ _ _ _ _ _ _ Hsuper).
  split.
  - by intros accuracy ->.
  - by intros ->.
Qed.

End accuracy_gate.

(** C2, as the specification states it, fails: both clients of
    [Sample.evaluate_results] report "accuracy" in their metrics, yet with
    the strategy the server builds (no evaluate-metrics aggregation function)
    the aggregated metrics map is empty, so [aggregate_evaluate] returns an
    empty metrics map, no accuracy in it, and logs "No accuracy metrics
    available.". *)
Lemma client_accuracy_is_not_surfaced :
  Forall (fun cr => is_Some (eval_metrics cr.2 !! "accuracy")) Sample.evaluate_results /\
  RichStrategy.aggregate_evaluate strategy 1 Sample.evaluate_results [] (mk_ui []) =
    (inr (Some Sample.evaluate_loss, ∅), mk_ui [no_accuracy_row 1]).
Proof.
  split.
  - repeat constructor; eexists; reflexivity.
  - reflexivity.
Qed.

Lemma accuracy_is_the_only_key_returned_witness :
  exists returned : Metrics,
    (RichStrategy.aggregate_evaluate Sample.strategy_with_metrics 1
       Sample.evaluate_results [] (mk_ui [])).1 = inr (Some Sample.evaluate_loss, returned) /\
    returned !! "accuracy" = Some (SFloat (finite (Q2Qc (9 # 10)))) /\
    dom returned = {["accuracy"]} /\
    (forall key, key <> "accuracy" -> returned !! key = None).
Proof.
  apply (accuracy_is_the_only_key_returned Sample.strategy_with_metrics 1
           (Sample.client "0", Sample.evaluate_res (1 # 2) (9 # 10) 10 120)
           [(Sample.client "1", Sample.evaluate_res (1 # 4) (8 # 10) 30 120)]
           [] (mk_ui []) (Some Sample.evaluate_loss)
           (eval_metrics (Sample.evaluate_res (1 # 2) (9 # 10) 10 120))).
  - reflexivity.
  - reflexivity.
Defined.

Lemma accuracy_surfaced_from_aggregated_metrics_witness :
  RichStrategy.aggregate_evaluate Sample.strategy_with_metrics 1
      Sample.evaluate_results [] (mk_ui []) =
    (inr (Some Sample.evaluate_loss, {["accuracy" := SFloat (finite (Q2Qc (9 # 10)))]}),
     mk_ui ([] ++ [accuracy_row 1 (SFloat (finite (Q2Qc (9 # 10))))])) /\
  RichStrategy.aggregate_evaluate strategy 1 Sample.evaluate_results [] (mk_ui []) =
    (inr (Some Sample.evaluate_loss, ∅), mk_ui ([] ++ [no_accuracy_row 1])).
Proof.
  split.
  - apply (proj1 (@accuracy_surfaced_from_aggregated_metrics FedAvg.t FedAvg_Strategy
                    Sample.strategy_with_metrics 1
                    (Sample.client "0", Sample.evaluate_res (1 # 2) (9 # 10) 10 120)
                    [(Sample.client "1", Sample.evaluate_res (1 # 4) (8 # 10) 30 120)]
                    [] (mk_ui []) (Some Sample.evaluate_loss)
                    (eval_metrics (Sample.evaluate_res (1 # 2) (9 # 10) 10 120))
                    ltac:(reflexivity))).
    reflexivity.
  - apply (proj2 (@accuracy_surfaced_from_aggregated_metrics FedAvg.t FedAvg_Strategy
                    strategy 1
                    (Sample.client "0", Sample.evaluate_res (1 # 2) (9 # 10) 10 120)
                    [(Sample.client "1", Sample.evaluate_res (1 # 4) (8 # 10) 30 120)]
                    [] (mk_ui []) (Some Sample.evaluate_loss) ∅
                    ltac:(reflexivity))).
    reflexivity.
Defined.

(** ** Failures next to results *)

Lemma FedAvg_accepts_failures (self : FedAvg.t) r results failures :
  FedAvg.accept_failures self = true ->
  FedAvg.aggregate_fit self r results failures = FedAvg.aggregate_fit self r results [].
Proof.
  intros Haccept. unfold FedAvg.aggregate_fit. rewrite Haccept. simpl.
  by destruct results.
Qed.

(** C9. With a strategy that accepts failures (the framework's default, and
    what the server builds), a round with results and with failures returns
    exactly what the same results return without any failure, so the
    aggregate is computed from the surviving results alone and the failures
    neither abort the round nor block the aggregation; and when the
    aggregation returns, the run logs the same rows followed by one warning
    row that carries the number of failures. *)
Theorem failures_are_logged_not_blocking (self : FedAvg.t) r x rest f fs ui :
  FedAvg.accept_failures self = true ->
  (RichStrategy.aggregate_fit self r (x :: rest) (f :: fs) ui).1 =
    (RichStrategy.aggregate_fit self r (x :: rest) [] ui).1 /\
  (RichStrategy.aggregate_fit self r (x :: rest) (f :: fs) ui).1 =
    FedAvg.aggregate_fit self r (x :: rest) [] /\
  (forall aggregated,
     (RichStrategy.aggregate_fit self r (x :: rest) [] ui).1 = inr aggregated ->
     logged (RichStrategy.aggregate_fit self r (x :: rest) (f :: fs)) ui =
       logged (RichStrategy.aggregate_fit self r (x :: rest) []) ui
       ++ [warning_row r (f :: fs)]).
Proof.
  intros Haccept. unfold logged. rewrite !aggregate_fit_run.
  cbn [super_aggregate_fit FedAvg_Strategy].
  rewrite (FedAvg_accepts_failures self r (x :: rest) (f :: fs) Haccept).
  destruct (FedAvg.aggregate_fit self r (x :: rest) []) as [e|agg]; simpl.
  - repeat split. intros aggregated Hagg. discriminate.
  - repeat split. intros aggregated _. rewrite !drop_table, app_nil_r.
    by rewrite app_comm_cons.
Qed.

Lemma failures_are_logged_not_blocking_witness :
  (RichStrategy.aggregate_fit strategy 1 SampleFit.results SampleFit.failures (mk_ui [])).1 =
    (RichStrategy.aggregate_fit strategy 1 SampleFit.results [] (mk_ui [])).1 /\
  (RichStrategy.aggregate_fit strategy 1 SampleFit.results SampleFit.failures (mk_ui [])).1 =
    FedAvg.aggregate_fit strategy 1 SampleFit.results [] /\
  (forall aggregated,
     (RichStrategy.aggregate_fit strategy 1 SampleFit.results [] (mk_ui [])).1 = inr aggregated ->
     logged (RichStrategy.aggregate_fit strategy 1 SampleFit.results SampleFit.failures) (mk_ui []) =
       logged (RichStrategy.aggregate_fit strategy 1 SampleFit.results []) (mk_ui [])
       ++ [warning_row 1 SampleFit.failures]).
Proof.
  apply (failures_are_logged_not_blocking strategy 1 SampleFit.first
           [SampleFit.second; SampleFit.third]
           (failed_exception (OtherError "deadline exceeded")) [] (mk_ui [])).
  reflexivity.
Defined.

(** ** Arithmetic of arrays *)

Section arrays.
#[local] Open Scope Qc_scope.

Lemma sum_Qc_zero {A : Type} (xs : list A) : sum_Qc (map (fun _ => 0) xs) = 0.
Proof. induction xs as [|x xs IH]; simpl; [reflexivity|]. rewrite IH. ring. Qed.

Lemma sum_Qc_scale {A : Type} (f : A -> Qc) (k : Qc) (xs : list A) :
  sum_Qc (map (fun x => f x * k) xs) = sum_Qc (map f xs) * k.
Proof.
  induction xs as [|x xs IH]; simpl; [ring|]. rewrite IH. ring.
Qed.

Lemma sum_Qc_ext {A : Type} (f g : A -> Qc) (xs : list A) :
  (forall x, f x = g x) -> sum_Qc (map f xs) = sum_Qc (map g xs).
Proof. intros Hfg. induction xs as [|x xs IH]; simpl; [reflexivity|]. by rewrite Hfg, IH. Qed.

Lemma nth_map_scale (k : Qc) (d : list Qc) i :
  nth i (map (fun x => x * k) d) 0 = nth i d 0 * k.
Proof.
  revert i. induction d as [|x d IH]; intros [|i]; simpl; try ring; apply IH.
Qed.

Lemma nth_map_divide (k : Qc) (d : list Qc) i :
  nth i (map (fun x => x / k) d) 0 = nth i d 0 / k.
Proof.
  revert i. induction d as [|x d IH]; intros [|i]; simpl;
    try (unfold Qcdiv; ring); apply IH.
Qed.

Lemma nth_zip_with_plus (a b : list Qc) i :
  length a = length b ->
  nth i (zip_with Qcplus a b) 0 = nth i a 0 + nth i b 0.
Proof.
  revert b i. induction a as [|x a IH]; intros [|y b] [|i] Hlen; simpl in *;
    try discriminate; try ring.
  apply IH. by injection Hlen.
Qed.

Lemma zip_with_plus_comm (a b : list Qc) :
  zip_with Qcplus a b = zip_with Qcplus b a.
Proof.
  revert b. induction a as [|x a IH]; intros [|y b]; simpl; try reflexivity.
  f_equal; [ring | apply IH].
Qed.

Lemma zip_with_plus_swap (a b c : list Qc) :
  zip_with Qcplus (zip_with Qcplus a b) c = zip_with Qcplus (zip_with Qcplus a c) b.
Proof.
  revert b c. induction a as [|x a IH]; intros [|y b] [|z c]; simpl; try reflexivity.
  f_equal; [ring | apply IH].
Qed.

End arrays.

(** ** Adding the layers at one position *)

Section reduce_add.
#[local] Open Scope Qc_scope.


Lemma reduce_add_cons a rest :
  FedAvg.reduce_add (a :: rest) = foldl add_step (inr a) rest.
Proof. reflexivity. Qed.

Lemma result_type_comm d1 d2 : np.result_type d1 d2 = np.result_type d2 d1.
Proof. by destruct d1, d2. Qed.

Lemma result_type_swap d1 d2 d3 :
  np.result_type (np.result_type d1 d2) d3 = np.result_type (np.result_type d1 d3) d2.
Proof. by destruct d1, d2, d3. Qed.

Lemma np_add_comm a b : np.add a b = np.add b a.
Proof.
  unfold np.add. destruct (decide (shape a = shape b)) as [Hab|Hab].
  - rewrite decide_True by done.
    by rewrite result_type_comm, zip_with_plus_comm, Hab.
  - by rewrite decide_False by done.
Qed.

Lemma add_step_swap acc b c :
  add_step (add_step acc b) c = add_step (add_step acc c) b.
Proof.
  destruct acc as [e|x]; [reflexivity|].
  unfold add_step, np.add. cbn [mbind Result_bind].
  destruct (decide (shape x = shape b)) as [Hb|Hb],
           (decide (shape x = shape c)) as [Hc|Hc];
    cbn [mbind Result_bind shape dtype data];
    rewrite ?decide_True by done; rewrite ?decide_False by done; try reflexivity.
  by rewrite result_type_swap, zip_with_plus_swap.
Qed.

Lemma foldl_add_step_permutation acc rest rest' :
  Permutation rest rest' -> foldl add_step acc rest = foldl add_step acc rest'.
Proof.
  intros Hperm. revert acc.
  induction Hperm as [|b l l' _ IH|b c l|l l' l'' _ IH1 _ IH2]; intros acc; simpl.
  - reflexivity.
  - apply IH.
  - by rewrite add_step_swap.
  - by rewrite IH1.
Qed.

(** The sum of the layers at one position does not depend on the order in
    which the clients are listed. *)
Lemma reduce_add_permutation layers layers' :
  Permutation layers layers' -> FedAvg.reduce_add layers = FedAvg.reduce_add layers'.
Proof.
  induction 1 as [|a l l' Hperm _|a b l|l l' l'' _ IH1 _ IH2].
  - reflexivity.
  - rewrite !reduce_add_cons. by apply foldl_add_step_permutation.
  - rewrite !reduce_add_cons. simpl. f_equal.
    unfold add_step. cbn [mbind Result_bind]. apply np_add_comm.
  - by rewrite IH1.
Qed.

(** Layers of one shape add up element by element. *)
Lemma foldl_add_step_same_shape s m rest : forall acc,
  shape acc = s -> length (data acc) = m ->
  Forall (fun b => shape b = s /\ length (data b) = m) rest ->
  exists sum,
    foldl add_step (inr acc) rest = inr sum /\
    shape sum = s /\ length (data sum) = m /\
    forall i, nth i (data sum) 0 = nth i (data acc) 0 + sum_Qc (map (fun b => nth i (data b) 0) rest).
Proof.
  induction rest as [|b rest IH]; intros acc Hs Hm Hall.
  - exists acc. repeat split; try done. intros i. simpl. ring.
  - apply Forall_cons in Hall as [[Hbs Hbm] Hall]. cbn [foldl].
    change (add_step (inr acc) b) with (np.add acc b). unfold np.add.
    rewrite decide_True by congruence.
    destruct (IH {| dtype := np.result_type (dtype acc) (dtype b);
                    shape := shape acc;
                    data := zip_with Qcplus (data acc) (data b) |})
      as (sum & Hsum & Hss & Hsm & Hnth); simpl.
    + done.
    + rewrite length_zip_with. lia.
    + done.
    + exists sum. repeat split; try done.
      intros i. rewrite Hnth. simpl.
      rewrite nth_zip_with_plus by congruence. ring.
Qed.

End reduce_add.

(** ** Layer by layer *)

Section layers.
Context {A : Type}.

Lemma zip_star_nil_head (rest : list (list A)) : FedAvg.zip_star ([] :: rest) = [].
Proof. by destruct rest. Qed.

Lemma zip_star_heads (ls : list (A * list A)) :
  ls <> [] ->
  FedAvg.zip_star (map (fun p => p.1 :: p.2) ls) = map fst ls :: FedAvg.zip_star (map snd ls).
Proof.
  induction ls as [|p ls IH]; [done|]. intros _.
  destruct ls as [|q ls]; [reflexivity|].
  change (FedAvg.zip_star (map (fun p => p.1 :: p.2) (p :: q :: ls)))
    with (zip_with cons (p.1 :: p.2) (FedAvg.zip_star (map (fun p => p.1 :: p.2) (q :: ls)))).
  by rewrite IH.
Qed.

Lemma zip_with_cons_Permutation (l : list A) (t t' : list (list A)) :
  Forall2 Permutation t t' ->
  Forall2 Permutation (zip_with cons l t) (zip_with cons l t').
Proof.
  intros Ht. revert l.
  induction Ht as [|x y t t' Hxy _ IH]; intros [|a l]; simpl; constructor.
  - by constructor.
  - apply IH.
Qed.

Lemma zip_with_cons_swap (a b : list A) (t : list (list A)) :
  Forall2 Permutation (zip_with cons a (zip_with cons b t)) (zip_with cons b (zip_with cons a t)).
Proof.
  revert b t. induction a as [|x a IH]; intros [|y b] [|z t]; simpl; constructor.
  - apply perm_swap.
  - apply IH.
Qed.

Lemma zip_with_cons_singletons_swap (a b : list A) :
  Forall2 Permutation (zip_with cons a (map (fun x => [x]) b))
                      (zip_with cons b (map (fun x => [x]) a)).
Proof.
  revert b. induction a as [|x a IH]; intros [|y b]; simpl; constructor.
  - apply perm_swap.
  - apply IH.
Qed.

Lemma Forall2_Permutation_refl (t : list (list A)) : Forall2 Permutation t t.
Proof. induction t; constructor; done. Qed.

Lemma Forall2_Permutation_trans (t1 t2 t3 : list (list A)) :
  Forall2 Permutation t1 t2 -> Forall2 Permutation t2 t3 -> Forall2 Permutation t1 t3.
Proof.
  intros H12. revert t3.
  induction H12 as [|x y t1 t2 Hxy _ IH]; intros t3 H23; inversion H23; subst; constructor.
  - by etrans.
  - by apply IH.
Qed.

(** Listing the clients in another order permutes every tuple of
    [zip_star] and nothing else. *)
Lemma zip_star_permutation (ls ls' : list (list A)) :
  Permutation ls ls' -> Forall2 Permutation (FedAvg.zip_star ls) (FedAvg.zip_star ls').
Proof.
  induction 1 as [|l ls ls' Hperm IH|a b ls|ls ls' ls'' _ IH1 _ IH2].
  - constructor.
  - destruct ls as [|m ls].
    + apply Permutation_nil in Hperm as ->. apply Forall2_Permutation_refl.
    + destruct ls' as [|m' ls']; [by apply Permutation_sym, Permutation_nil in Hperm|].
      change (Forall2 Permutation (zip_with cons l (FedAvg.zip_star (m :: ls)))
                                  (zip_with cons l (FedAvg.zip_star (m' :: ls')))).
      by apply zip_with_cons_Permutation.
  - destruct ls as [|m ls].
    + apply zip_with_cons_singletons_swap.
    + change (Forall2 Permutation
                (zip_with cons b (zip_with cons a (FedAvg.zip_star (m :: ls))))
                (zip_with cons a (zip_with cons b (FedAvg.zip_star (m :: ls))))).
      apply zip_with_cons_swap.
  - by eapply Forall2_Permutation_trans.
Qed.

End layers.

Lemma traverse_Forall2 {A B : Type} (f : A -> Result B) (xs ys : list A) :
  Forall2 (fun x y => f x = f y) xs ys -> FedAvg.traverse f xs = FedAvg.traverse f ys.
Proof.
  induction 1 as [|x y xs ys Hxy _ IH]; simpl; [reflexivity|].
  by rewrite Hxy, IH.
Qed.

Lemma num_examples_total_permutation {A : Type} (results results' : list (A * Z)) :
  Permutation results results' ->
  FedAvg.num_examples_total results = FedAvg.num_examples_total results'.
Proof.
  unfold FedAvg.num_examples_total.
  induction 1 as [|x l l' _ IH|x y l|l l' l'' _ IH1 _ IH2]; simpl; lia.
Qed.

Lemma aggregate_unfold (results : list (NDArrays * Z)) :
  FedAvg.aggregate results =
    FedAvg.traverse (average_layer (FedAvg.num_examples_total results))
      (FedAvg.zip_star (map scale_layers results)).
Proof.
  unfold FedAvg.aggregate. do 2 f_equal.
  apply map_ext. by intros [weights n].
Qed.

(** The framework's average does not depend on the order of its input. *)
Lemma aggregate_permutation (results results' : list (NDArrays * Z)) :
  Permutation results results' -> FedAvg.aggregate results = FedAvg.aggregate results'.
Proof.
  intros Hperm. rewrite !aggregate_unfold.
  rewrite (num_examples_total_permutation _ _ Hperm).
  apply traverse_Forall2.
  eapply Forall2_impl.
  - apply zip_star_permutation, Permutation_map, Hperm.
  - intros layer layer' Hlayer. unfold average_layer.
    by rewrite (reduce_add_permutation _ _ Hlayer).
Qed.

(** ** The three averaging claims *)

Lemma FedAvg_aggregate_fit_cons (self : FedAvg.t) r x rest failures :
  FedAvg.accept_failures self = true ->
  FedAvg.aggregate_fit self r (x :: rest) failures =
    match FedAvg.aggregate (weights_results (x :: rest)) with
    | inl e => inl e
    | inr aggregated =>
        inr (Some aggregated,
             FedAvg.aggregate_metrics (FedAvg.fit_metrics_aggregation_fn self)
               (map (fun '(_, res) => (fit_num_examples res, fit_metrics res)) (x :: rest)))
    end.
Proof. intros Haccept. unfold FedAvg.aggregate_fit. rewrite Haccept. reflexivity. Qed.

Lemma FedAvg_parameters_permutation (self : FedAvg.t) r results results' failures :
  Permutation results results' ->
  parameters_of (FedAvg.aggregate_fit self r results failures) =
  parameters_of (FedAvg.aggregate_fit self r results' failures).
Proof.
  intros Hperm.
  destruct results as [|x rest], results' as [|x' rest'].
  - reflexivity.
  - by apply Permutation_nil in Hperm.
  - by apply Permutation_sym, Permutation_nil in Hperm.
  - unfold FedAvg.aggregate_fit.
    destruct (negb (FedAvg.accept_failures self) && bool_decide (failures ≠ []));
      [reflexivity|].
    fold (weights_results (x :: rest)). fold (weights_results (x' :: rest')).
    rewrite (aggregate_permutation (weights_results (x :: rest)) (weights_results (x' :: rest')))
      by (by apply Permutation_map).
    by destruct (FedAvg.aggregate (weights_results (x' :: rest'))).
Qed.

(** C7. Listing the results of a round in another order leaves the
    aggregated ParameterSet unchanged: for a non-empty [results] and any
    permutation [results'] of it, [aggregate_fit] returns the same
    ParameterSet (or stops on the same exception), whatever the failures and
    the table are. Rationals stand for the floats, so the two ParameterSets
    are equal, not only close. *)
Theorem aggregate_fit_permutation_invariant (self : FedAvg.t) r results results' failures ui ui' :
  results <> [] ->
  Permutation results results' ->
  parameters_of (RichStrategy.aggregate_fit self r results failures ui).1 =
  parameters_of (RichStrategy.aggregate_fit self r results' failures ui').1.
Proof.
  intros Hne Hperm.
  destruct results as [|x rest]; [done|].
  destruct results' as [|x' rest']; [by apply Permutation_sym, Permutation_nil in Hperm|].
  rewrite !aggregate_fit_returns_super.
  by apply FedAvg_parameters_permutation.
Qed.

Section single_client.
#[local] Open Scope Qc_scope.

Lemma Qc_of_Z_nonzero (n : Z) : (0 < n)%Z -> Qc_of_Z n <> 0.
Proof.
  intros Hn Heq. rewrite <- Z2Qc_inj_0 in Heq. apply Z2Qc_inj in Heq. lia.
Qed.

Lemma np_divide_multiply (a : NDArray) (k : Qc) :
  k <> 0 -> np.divide (np.multiply a k) k = a.
Proof.
  intros Hk. destruct a as [d s xs]. unfold np.divide, np.multiply. simpl. f_equal.
  rewrite map_map. rewrite <- (map_id xs) at 2. apply map_ext.
  intros x. by field.
Qed.

Lemma aggregate_single (weights : NDArrays) (n : Z) :
  (0 < n)%Z -> FedAvg.aggregate [(weights, n)] = inr weights.
Proof.
  intros Hn. rewrite aggregate_unfold.
  unfold FedAvg.num_examples_total, scale_layers. simpl. rewrite Z.add_0_r.
  induction weights as [|a weights IH]; simpl; [reflexivity|].
  rewrite IH. unfold average_layer. simpl.
  by rewrite np_divide_multiply by by apply Qc_of_Z_nonzero.
Qed.

(** C8. A round with a single result whose example count [N] is positive
    gives that client the weight [N / N = 1] and returns the ParameterSet
    the client submitted, array for array and element for element,
    whatever [N] is. *)
Theorem single_client_update_is_returned (self : FedAvg.t) r client res failures ui :
  FedAvg.accept_failures self = true ->
  (0 < fit_num_examples res)%Z ->
  client_weight [(client, res)] (client, res) = 1 /\
  parameters_of (RichStrategy.aggregate_fit self r [(client, res)] failures ui).1 =
    inr (Some (fit_parameters res)).
Proof.
  intros Haccept Hn. split.
  - unfold client_weight, example_total. simpl. rewrite Z.add_0_r.
    field. by apply Qc_of_Z_nonzero.
  - rewrite aggregate_fit_returns_super.
    cbn [super_aggregate_fit FedAvg_Strategy].
    rewrite FedAvg_aggregate_fit_cons by done.
    unfold weights_results. simpl. by rewrite aggregate_single.
Qed.

End single_client.

Section weighted_average.
#[local] Open Scope Qc_scope.

Lemma element_nil l i : element [] l i = 0.
Proof. unfold element. by destruct l, i. Qed.

Lemma element_head ps i : element ps 0 i = nth i (data (hd empty_array ps)) 0.
Proof. unfold element. by destruct ps. Qed.

Lemma element_tail ps l i : element ps (S l) i = element (tl ps) l i.
Proof. unfold element. destruct ps; [by destruct l, i | reflexivity]. Qed.

(** Averaging the scaled layers of clients that share one architecture
    succeeds, keeps the architecture, and puts at every position the sum
    of the scaled elements over the total. *)
Lemma average_layers (t : Z) : forall arch (wr : list (NDArrays * Z)),
  wr <> [] ->
  Forall (fun wn => architecture wn.1 = arch) wr ->
  exists params,
    FedAvg.traverse (average_layer t) (FedAvg.zip_star (map scale_layers wr)) = inr params /\
    architecture params = arch /\
    forall l i,
      element params l i =
      sum_Qc (map (fun wn => element wn.1 l i * Qc_of_Z wn.2) wr) / Qc_of_Z t.
Proof.
  induction arch as [|[s m] arch IH]; intros wr Hne Hall.
  - exists []. destruct wr as [|[ws n] wr]; [done|].
    assert (Hnil : Forall (fun wn : NDArrays * Z => wn.1 = []) ((ws, n) :: wr)).
    { eapply Forall_impl; [exact Hall|]. intros [ws' n'] Harch. simpl in *.
      by destruct ws'. }
    apply Forall_cons in Hnil as Hnil'. destruct Hnil' as [Hws _]. simpl in Hws. subst ws.
    split; [|split].
    + change (map scale_layers (([], n) :: wr)) with ([] :: map scale_layers wr).
      by rewrite zip_star_nil_head.
    + reflexivity.
    + intros l i. rewrite element_nil.
      rewrite (proj1 (Forall_fmap_ext _ (fun _ => 0) _)).
      * rewrite sum_Qc_zero. unfold Qcdiv. ring.
      * eapply Forall_impl; [exact Hnil|]. intros [ws' n'] Hws'. simpl in *. subst ws'.
        rewrite element_nil. ring.
  - set (pairs := map (fun wn : NDArrays * Z =>
                         (np.multiply (hd empty_array wn.1) (Qc_of_Z wn.2),
                          scale_layers (tl wn.1, wn.2))) wr).
    set (tails := map (fun wn : NDArrays * Z => (tl wn.1, wn.2)) wr).
    assert (Hsplit : map scale_layers wr = map (fun p => p.1 :: p.2) pairs).
    { unfold pairs. rewrite map_map. apply Forall_fmap_ext.
      eapply Forall_impl; [exact Hall|]. intros [ws n] Harch. simpl in *.
      by destruct ws. }
    assert (Hpairs : pairs <> []) by (unfold pairs; by destruct wr).
    assert (Htails : map snd pairs = map scale_layers tails).
    { unfold pairs, tails. by rewrite !map_map. }
    rewrite Hsplit, (zip_star_heads pairs Hpairs), Htails. simpl.
    destruct (IH tails) as (params & Hparams & Harch & Helem).
    { unfold tails. by destruct wr. }
    { unfold tails. apply Forall_fmap. eapply Forall_impl; [exact Hall|].
      intros [ws n] Hws. simpl in *. destruct ws; [discriminate|]. simpl in *. congruence. }
    rewrite Hparams.
    assert (Hheads : Forall (fun b => shape b = s /\ length (data b) = m) (map fst pairs)).
    { unfold pairs. rewrite map_map. apply Forall_fmap. eapply Forall_impl; [exact Hall|].
      intros [ws n] Hws. simpl in *. destruct ws as [|a ws]; [discriminate|]. simpl in *.
      rewrite length_map. split; congruence. }
    destruct (map fst pairs) as [|a heads] eqn:Hfst.
    { destruct pairs; [done | discriminate]. }
    apply Forall_cons in Hheads as [[Has Ham] Hheads].
    destruct (foldl_add_step_same_shape s m heads a Has Ham Hheads)
      as (sum & Hsum & Hss & Hsm & Hnth).
    unfold average_layer at 1. rewrite reduce_add_cons, Hsum. simpl.
    eexists. split; [reflexivity|]. split.
    + simpl. rewrite length_map. by rewrite Hss, Hsm, Harch.
    + intros [|l] i.
      * rewrite element_head. simpl. rewrite nth_map_divide, Hnth. f_equal.
        change (nth i (data a) 0 + sum_Qc (map (fun b => nth i (data b) 0) heads))
          with (sum_Qc (map (fun b => nth i (data b) 0) (a :: heads))).
        rewrite <- Hfst. unfold pairs. rewrite !map_map. apply sum_Qc_ext.
        intros [ws n]. simpl. by rewrite nth_map_scale, element_head.
      * rewrite element_tail. simpl. rewrite Helem. f_equal.
        unfold tails. rewrite map_map. apply sum_Qc_ext.
        intros [ws n]. simpl. by rewrite element_tail.
Qed.

Lemma num_examples_total_weights_results results :
  FedAvg.num_examples_total (weights_results results) = example_total results.
Proof.
  unfold FedAvg.num_examples_total, example_total, weights_results.
  rewrite map_map. f_equal. apply map_ext. by intros [c res].
Qed.

Lemma example_total_positive results :
  results <> [] ->
  Forall (fun cr => (0 < fit_num_examples cr.2)%Z) results ->
  (0 < example_total results)%Z.
Proof.
  unfold example_total. intros Hne Hall.
  induction Hall as [|cr results Hcr Hall IH]; [done|]. simpl.
  destruct results as [|cr' results]; simpl in *; [lia|].
  assert (0 < foldr Z.add 0 (map (fun cr => fit_num_examples cr.2) (cr' :: results)))%Z
    by (by apply IH).
  simpl in *. lia.
Qed.

Lemma sum_Qc_of_Z {A : Type} (f : A -> Z) (xs : list A) :
  sum_Qc (map (fun x => Qc_of_Z (f x)) xs) = Qc_of_Z (foldr Z.add 0%Z (map f xs)).
Proof.
  induction xs as [|x xs IH]; simpl.
  - by rewrite Z2Qc_inj_0.
  - by rewrite IH, Z2Qc_inj_add.
Qed.

(** The weights of a round with positive example counts add up to one. *)
Lemma client_weights_sum_to_one results :
  results <> [] ->
  Forall (fun cr => (0 < fit_num_examples cr.2)%Z) results ->
  sum_Qc (map (client_weight results) results) = 1.
Proof.
  intros Hne Hall. unfold client_weight, Qcdiv.
  rewrite (sum_Qc_scale (fun cr => Qc_of_Z (fit_num_examples cr.2))).
  rewrite sum_Qc_of_Z. fold (example_total results).
  apply Qcmult_inv_r, Qc_of_Z_nonzero. by apply example_total_positive.
Qed.

(** C1. For a non-empty list of ClientUpdates with positive example counts
    (and ParameterSets of one architecture, the invariant of the data
    model), [aggregate_fit] returns a ParameterSet of that architecture in
    which element [i] of layer [l] is the sum over the clients of
    [example_count / total example_count] times the client's element [i] of
    layer [l]; the weights add up to one. Rationals stand for the floats. *)
Theorem aggregate_fit_is_weighted_average (self : FedAvg.t) r x rest failures ui arch :
  FedAvg.accept_failures self = true ->
  Forall (fun cr => (0 < fit_num_examples cr.2)%Z) (x :: rest) ->
  Forall (fun cr => architecture (fit_parameters cr.2) = arch) (x :: rest) ->
  exists params,
    parameters_of (RichStrategy.aggregate_fit self r (x :: rest) failures ui).1 =
      inr (Some params) /\
    architecture params = arch /\
    (forall l i, element params l i = weighted_average (x :: rest) l i) /\
    sum_Qc (map (client_weight (x :: rest)) (x :: rest)) = 1.
Proof.
  intros Haccept Hpos Harch.
  destruct (average_layers (example_total (x :: rest)) arch (weights_results (x :: rest)))
    as (params & Hparams & Hparch & Helem).
  { by destruct x. }
  { unfold weights_results. apply Forall_fmap. eapply Forall_impl; [exact Harch|].
    by intros [c res]. }
  exists params. split; [|split; [exact Hparch|split]].
  - rewrite aggregate_fit_returns_super.
    cbn [super_aggregate_fit FedAvg_Strategy].
    rewrite FedAvg_aggregate_fit_cons by done.
    rewrite aggregate_unfold, num_examples_total_weights_results, Hparams.
    reflexivity.
  - intros l i. rewrite Helem. unfold weighted_average, client_weight, weights_results, Qcdiv.
    rewrite <- sum_Qc_scale, map_map. apply sum_Qc_ext.
    intros [c res]. simpl. ring.
  - by apply client_weights_sum_to_one.
Qed.

End weighted_average.

(** ** The claims on the sample round *)

Lemma aggregate_fit_is_weighted_average_witness :
  exists params,
    parameters_of (RichStrategy.aggregate_fit strategy 1 SampleFit.results
                     SampleFit.failures (mk_ui [])).1 = inr (Some params) /\
    architecture params = SampleRound.arch /\
    (forall l i, element params l i = weighted_average SampleFit.results l i) /\
    sum_Qc (map (client_weight SampleFit.results) SampleFit.results) = 1%Qc.
Proof.
  apply (aggregate_fit_is_weighted_average strategy 1 SampleFit.first
           [SampleFit.second; SampleFit.third] SampleFit.failures (mk_ui []) SampleRound.arch).
  - reflexivity.
  - repeat constructor.
  - repeat constructor.
Defined.

Lemma aggregate_fit_permutation_invariant_witness :
  parameters_of (RichStrategy.aggregate_fit strategy 1 SampleFit.results
                   SampleFit.failures (mk_ui [])).1 =
  parameters_of (RichStrategy.aggregate_fit strategy 1 SampleRound.shuffled
                   SampleFit.failures (mk_ui [])).1.
Proof.
  apply (aggregate_fit_permutation_invariant strategy 1 SampleFit.results SampleRound.shuffled
           SampleFit.failures (mk_ui []) (mk_ui [])).
  - discriminate.
  - apply Permutation_sym.
    apply (Permutation_cons_append [SampleFit.first; SampleFit.second] SampleFit.third).
Defined.

Lemma single_client_update_is_returned_witness :
  client_weight [SampleFit.third] SampleFit.third = 1%Qc /\
  parameters_of (RichStrategy.aggregate_fit strategy 1 [SampleFit.third]
                   SampleFit.failures (mk_ui [])).1 =
    inr (Some (fit_parameters SampleFit.third.2)).
Proof.
  apply (single_client_update_is_returned strategy 1 (Sample.client "2")
           (SampleFit.fit_res [[7; 8]; [9]]%Q 3) SampleFit.failures (mk_ui [])).
  - reflexivity.
  - reflexivity.
Defined.

(** The sample round of three clients with the weights 1/6, 2/6 and 3/6
    returns the hand-computed weighted mean. *)
Example sample_round_hand_computed :
  parameters_of (RichStrategy.aggregate_fit strategy 1 SampleFit.results
                   SampleFit.failures (mk_ui [])).1 =
    inr (Some SampleRound.hand_computed).
Proof.
  unfold SampleFit.results.
  rewrite aggregate_fit_returns_super. cbn [super_aggregate_fit FedAvg_Strategy].
  rewrite FedAvg_aggregate_fit_cons by reflexivity.
  unfold parameters_of.
  assert (Hagg : FedAvg.aggregate
                   (weights_results [SampleFit.first; SampleFit.second; SampleFit.third])
                 = inr SampleRound.hand_computed).
  { unfold FedAvg.aggregate, SampleRound.hand_computed, Sample.vector. simpl.
    unfold np.divide. simpl.
    repeat f_equal; apply Qc_is_canon; reflexivity. }
  by rewrite Hagg.
Qed.

(** ** Byte counting *)

Lemma sum_nbytes_arrays (arrays : NDArrays) : forall acc,
  FlowerClient.sum_nbytes acc (map ndarray arrays) = inr (acc + serialized_size arrays)%Z.
Proof.
  induction arrays as [|a arrays IH]; intros acc; simpl.
  - by rewrite Z.add_0_r.
  - rewrite IH. f_equal. unfold serialized_size. simpl. lia.
Qed.

Lemma count_bytes_arrays (arrays : NDArrays) :
  FlowerClient.count_bytes (map ndarray arrays) = serialized_size arrays.
Proof. unfold FlowerClient.count_bytes. by rewrite sum_nbytes_arrays. Qed.

Lemma sum_nbytes_raises (ws : list PyObject) : forall acc,
  Exists has_no_nbytes ws -> FlowerClient.sum_nbytes acc ws = inl AttributeError.
Proof.
  induction ws as [|w ws IH]; intros acc Hex; [by apply Exists_nil in Hex|].
  destruct w as [a|repr]; simpl; [|reflexivity].
  apply IH. apply Exists_cons in Hex as [Hw|Hws]; [done | exact Hws].
Qed.

Lemma tally_loop_raises results : forall up down,
  Exists (fun cr => unconvertible (up_value cr.2) \/ unconvertible (down_value cr.2)) results ->
  exists e, RichStrategy.tally_loop results up down = inl e.
Proof.
  induction results as [|[c res] results IH]; intros up down Hex;
    [by apply Exists_nil in Hex|].
  simpl. fold (up_value res). fold (down_value res).
  destruct (Py.int (up_value res)) as [e|u] eqn:Hu; [by exists e|].
  destruct (Py.int (down_value res)) as [e|d] eqn:Hd; [by exists e|].
  cbn [mbind Result_bind].
  apply Exists_cons in Hex as [[Hbad|Hbad]|Hrest].
  - simpl in Hbad. destruct (up_value res) as [z|[q| |neg]|b]; done.
  - simpl in Hbad. destruct (down_value res) as [z|[q| |neg]|b]; done.
  - by apply IH.
Qed.

Section client_runs.
Context {M : Type} `{Keras.Model M} (globals : Globals) (self : FlowerClient.t).

(** One run of [fit] when the two Keras calls that may raise return. *)
Lemma fit_run parameters config p m1 m2 :
  Keras.set_weights (model p) parameters = inr m1 ->
  Keras.fit m1 (x_train globals) (y_train globals) FlowerClient.fit_args = inr m2 ->
  exists lines,
    FlowerClient.fit globals self parameters config p =
      (inr (Keras.get_weights m2,
            Z.of_nat (length (x_train globals)),
            <["up_bytes" := SInt (FlowerClient.count_bytes (map ndarray (Keras.get_weights m2)))]>
              (<["down_bytes" := SInt (FlowerClient.count_bytes parameters)]> ∅)),
       mk_process m2 (calls p ++ fit_calls globals parameters) lines).
Proof.
  intros Hset Hfit.
  unfold FlowerClient.fit, FlowerClient.log_info, FlowerClient.model_set_weights,
    FlowerClient.model_fit, FlowerClient.model_get_weights, fit_calls.
  unfold mbind, mret, Eff_bind, Eff_ret. cbn [model calls log_lines].
  rewrite Hset. cbn [model calls log_lines]. rewrite Hfit. cbn [model calls log_lines].
  eexists. rewrite <- !app_assoc. reflexivity.
Qed.

(** One run of [evaluate] when the two Keras calls that may raise return. *)
Lemma evaluate_run parameters config p m1 loss accuracy :
  Keras.set_weights (model p) parameters = inr m1 ->
  Keras.evaluate m1 (x_test globals) (y_test globals) = inr (loss, accuracy) ->
  exists lines,
    FlowerClient.evaluate globals self parameters config p =
      (inr (loss,
            Z.of_nat (length (x_test globals)),
            <["accuracy" := SFloat (finite accuracy)]>
              (<["down_bytes" := SInt (FlowerClient.count_bytes parameters)]> ∅)),
       mk_process m1 (calls p ++ evaluate_calls globals parameters) lines).
Proof.
  intros Hset Heval.
  unfold FlowerClient.evaluate, FlowerClient.log_info, FlowerClient.model_set_weights,
    FlowerClient.model_evaluate, evaluate_calls.
  unfold mbind, mret, Eff_bind, Eff_ret. cbn [model calls log_lines].
  rewrite Hset. cbn [model calls log_lines]. rewrite Heval. cbn [model calls log_lines].
  eexists. rewrite <- !app_assoc. reflexivity.
Qed.

End client_runs.

(** ** The client's [fit] and [evaluate] *)

(** C4, as the code has it. [fit] hands the whole list of received
    parameters to [model.set_weights] before anything else touches the
    model, then makes exactly one training call, with [epochs=1], over the
    local partition [(x_train, y_train)], then reads the weights back and
    returns them; the model of the process is the trained one. The
    example_count it returns is [len(x_train)], the size of the whole local
    partition handed to that call (the call also carries
    [validation_split=0.1]). *)
Theorem fit_overwrites_trains_one_epoch_counts_partition
    {M : Type} `{Keras.Model M} (globals : Globals) (self : FlowerClient.t)
    (parameters : list PyObject) (config : Metrics) (p : Process M) (m1 m2 : M) :
  Keras.set_weights (model p) parameters = inr m1 ->
  Keras.fit m1 (x_train globals) (y_train globals) FlowerClient.fit_args = inr m2 ->
  exists metrics p',
    FlowerClient.fit globals self parameters config p =
      (inr (Keras.get_weights m2, Z.of_nat (length (x_train globals)), metrics), p') /\
    model p' = m2 /\
    calls p' = calls p ++ [ call_set_weights parameters;
                            call_fit (x_train globals) (y_train globals) FlowerClient.fit_args;
                            call_get_weights ] /\
    Keras.epochs FlowerClient.fit_args = 1%Z.
Proof.
  intros Hset Hfit.
  destruct (fit_run globals self parameters config p m1 m2 Hset Hfit) as (lines & Hrun).
  eexists _, _. split; [exact Hrun|]. by repeat split.
Qed.

Lemma fit_overwrites_trains_one_epoch_counts_partition_witness :
  exists metrics p',
    FlowerClient.fit Toy.globals Toy.client Toy.parameters ∅ Toy.process =
      (inr ([np.multiply Toy.ten (Q2Qc (1 # 2)); np.multiply Toy.twenty (Q2Qc (1 # 2))],
            10%Z, metrics), p') /\
    model p' = [np.multiply Toy.ten (Q2Qc (1 # 2)); np.multiply Toy.twenty (Q2Qc (1 # 2))] /\
    calls p' = [] ++ [ call_set_weights Toy.parameters;
                       call_fit (x_train Toy.globals) (y_train Toy.globals) FlowerClient.fit_args;
                       call_get_weights ] /\
    Keras.epochs FlowerClient.fit_args = 1%Z.
Proof.
  exact (fit_overwrites_trains_one_epoch_counts_partition Toy.globals Toy.client
           Toy.parameters ∅ Toy.process [Toy.ten; Toy.twenty]
           [np.multiply Toy.ten (Q2Qc (1 # 2)); np.multiply Toy.twenty (Q2Qc (1 # 2))]
           eq_refl eq_refl).
Defined.

(** C4, as the specification states it, fails: on a local partition of ten
    samples [fit] returns the example_count 10, while the one epoch it ran,
    with [validation_split=0.1], trained on 9 samples. *)
Lemma example_count_is_not_the_trained_count :
  (exists weights metrics p',
     FlowerClient.fit Toy.globals Toy.client Toy.parameters ∅ Toy.process =
       (inr (weights, 10%Z, metrics), p')) /\
  Keras.training_samples (Z.of_nat (length (x_train Toy.globals)))
    (Keras.validation_split FlowerClient.fit_args) = 9%Z.
Proof.
  split.
  - assert (Hset : Keras.set_weights (model Toy.process) Toy.parameters
                   = inr [Toy.ten; Toy.twenty]) by reflexivity.
    assert (Hfit : Keras.fit [Toy.ten; Toy.twenty] (x_train Toy.globals) (y_train Toy.globals)
                     FlowerClient.fit_args
                   = inr [np.multiply Toy.ten (Q2Qc (1 # 2));
                          np.multiply Toy.twenty (Q2Qc (1 # 2))]) by reflexivity.
    destruct (fit_run Toy.globals Toy.client Toy.parameters ∅ Toy.process _ _ Hset Hfit)
      as (lines & Hrun).
    eexists _, _, _. exact Hrun.
  - reflexivity.
Qed.

Section client_claims.
Context {M : Type} `{Keras.Model M} (globals : Globals) (self : FlowerClient.t).

Lemma fit_reports_counts parameters config p m1 m2 :
  Keras.set_weights (model p) parameters = inr m1 ->
  Keras.fit m1 (x_train globals) (y_train globals) FlowerClient.fit_args = inr m2 ->
  exists n metrics p',
    FlowerClient.fit globals self parameters config p =
      (inr (Keras.get_weights m2, n, metrics), p') /\
    metrics !! "down_bytes" = Some (SInt (FlowerClient.count_bytes parameters)) /\
    metrics !! "up_bytes" =
      Some (SInt (FlowerClient.count_bytes (map ndarray (Keras.get_weights m2)))).
Proof.
  intros Hset Hfit.
  destruct (fit_run globals self parameters config p m1 m2 Hset Hfit) as (lines & Hrun).
  eexists _, _, _. split; [exact Hrun|]. split.
  - rewrite lookup_insert_ne by done. apply lookup_insert_eq.
  - apply lookup_insert_eq.
Qed.

Lemma evaluate_reports_count parameters config p m1 loss accuracy :
  Keras.set_weights (model p) parameters = inr m1 ->
  Keras.evaluate m1 (x_test globals) (y_test globals) = inr (loss, accuracy) ->
  exists n metrics p',
    FlowerClient.evaluate globals self parameters config p = (inr (loss, n, metrics), p') /\
    metrics !! "down_bytes" = Some (SInt (FlowerClient.count_bytes parameters)).
Proof.
  intros Hset Heval.
  destruct (evaluate_run globals self parameters config p m1 loss accuracy Hset Heval)
    as (lines & Hrun).
  eexists _, _, _. split; [exact Hrun|].
  rewrite lookup_insert_ne by done. apply lookup_insert_eq.
Qed.

(** C6. For a ParameterSet of arrays that the model accepts, [fit] reports
    as "down_bytes" the byte size of the ParameterSet it received and as
    "up_bytes" the byte size of the ParameterSet it returns, and [evaluate]
    reports as "down_bytes" the byte size of the ParameterSet it received.
    Two float32 arrays of 10 and 20 elements make 120 bytes. *)
Theorem reported_bytes_are_serialized_sizes (arrays : NDArrays) (config : Metrics)
    (p : Process M) (m1 : M) :
  Keras.set_weights (model p) (map ndarray arrays) = inr m1 ->
  (forall m2,
     Keras.fit m1 (x_train globals) (y_train globals) FlowerClient.fit_args = inr m2 ->
     exists n metrics p',
       FlowerClient.fit globals self (map ndarray arrays) config p =
         (inr (Keras.get_weights m2, n, metrics), p') /\
       metrics !! "down_bytes" = Some (SInt (serialized_size arrays)) /\
       metrics !! "up_bytes" = Some (SInt (serialized_size (Keras.get_weights m2)))) /\
  (forall loss accuracy,
     Keras.evaluate m1 (x_test globals) (y_test globals) = inr (loss, accuracy) ->
     exists n metrics p',
       FlowerClient.evaluate globals self (map ndarray arrays) config p =
         (inr (loss, n, metrics), p') /\
       metrics !! "down_bytes" = Some (SInt (serialized_size arrays))) /\
  (forall a b : NDArray,
     dtype a = float32 -> dtype b = float32 -> np.size a = 10%Z -> np.size b = 20%Z ->
     serialized_size [a; b] = 120%Z).
Proof.
  intros Hset. split; [|split].
  - intros m2 Hfit.
    destruct (fit_reports_counts _ config p m1 m2 Hset Hfit)
      as (n & metrics & p' & Hrun & Hdown & Hup).
    rewrite !count_bytes_arrays in *. by eexists _, _, _.
  - intros loss accuracy Heval.
    destruct (evaluate_reports_count _ config p m1 loss accuracy Hset Heval)
      as (n & metrics & p' & Hrun & Hdown).
    rewrite count_bytes_arrays in Hdown. by eexists _, _, _.
  - intros a b Ha Hb Hsa Hsb. unfold serialized_size, np.nbytes. simpl.
    rewrite Ha, Hb, Hsa, Hsb. reflexivity.
Qed.

End client_claims.

Lemma reported_bytes_are_serialized_sizes_witness :
  (forall m2,
     Keras.fit [Toy.ten; Toy.twenty] (x_train Toy.globals) (y_train Toy.globals)
       FlowerClient.fit_args = inr m2 ->
     exists n metrics p',
       FlowerClient.fit Toy.globals Toy.client (map ndarray [Toy.ten; Toy.twenty]) ∅ Toy.process =
         (inr (Keras.get_weights m2, n, metrics), p') /\
       metrics !! "down_bytes" = Some (SInt (serialized_size [Toy.ten; Toy.twenty])) /\
       metrics !! "up_bytes" = Some (SInt (serialized_size (Keras.get_weights m2)))) /\
  (forall loss accuracy,
     Keras.evaluate [Toy.ten; Toy.twenty] (x_test Toy.globals) (y_test Toy.globals)
       = inr (loss, accuracy) ->
     exists n metrics p',
       FlowerClient.evaluate Toy.globals Toy.client (map ndarray [Toy.ten; Toy.twenty]) ∅
         Toy.process = (inr (loss, n, metrics), p') /\
       metrics !! "down_bytes" = Some (SInt (serialized_size [Toy.ten; Toy.twenty]))) /\
  (forall a b : NDArray,
     dtype a = float32 -> dtype b = float32 -> np.size a = 10%Z -> np.size b = 20%Z ->
     serialized_size [a; b] = 120%Z).
Proof.
  exact (reported_bytes_are_serialized_sizes Toy.globals Toy.client [Toy.ten; Toy.twenty] ∅
           Toy.process [Toy.ten; Toy.twenty] eq_refl).
Defined.

(** The sample client, given two float32 arrays of 10 and 20 elements,
    reports 120 bytes down and 120 bytes up. *)
Example sample_fit_reports_120_bytes :
  exists weights n metrics p',
    FlowerClient.fit Toy.globals Toy.client Toy.parameters ∅ Toy.process =
      (inr (weights, n, metrics), p') /\
    metrics !! "down_bytes" = Some (SInt 120) /\
    metrics !! "up_bytes" = Some (SInt 120).
Proof.
  assert (Hset : Keras.set_weights (model Toy.process) Toy.parameters
                 = inr [Toy.ten; Toy.twenty]) by reflexivity.
  assert (Hfit : Keras.fit [Toy.ten; Toy.twenty] (x_train Toy.globals) (y_train Toy.globals)
                   FlowerClient.fit_args
                 = inr [np.multiply Toy.ten (Q2Qc (1 # 2));
                        np.multiply Toy.twenty (Q2Qc (1 # 2))]) by reflexivity.
  destruct (fit_reports_counts Toy.globals Toy.client Toy.parameters ∅ Toy.process _ _ Hset Hfit)
    as (n & metrics & p' & Hrun & Hdown & Hup).
  eexists _, _, _, _. split; [exact Hrun|]. split; [exact Hdown | exact Hup].
Qed.

(** C5. Byte counting is best effort. On the client, a parameter list with
    an object whose [.nbytes] raises counts as 0 bytes, and [fit] and
    [evaluate] return whenever the Keras calls return, for every parameter
    list, with the counted value (0 after a failure) in their metrics. On
    the server, a result whose transfer metric [int()] cannot convert puts
    both totals of the round to 0, no transfer row is logged, and
    [aggregate_fit] ends the way the parent's aggregation ends: the tally
    never raises. *)
Theorem byte_counting_is_best_effort :
  (forall ws, Exists has_no_nbytes ws -> FlowerClient.count_bytes ws = 0%Z) /\
  (forall (M : Type) (K : Keras.Model M) globals self parameters config (p : Process M) m1,
     Keras.set_weights (model p) parameters = inr m1 ->
     (forall m2,
        Keras.fit m1 (x_train globals) (y_train globals) FlowerClient.fit_args = inr m2 ->
        exists n metrics p',
          FlowerClient.fit globals self parameters config p =
            (inr (Keras.get_weights m2, n, metrics), p') /\
          metrics !! "down_bytes" = Some (SInt (FlowerClient.count_bytes parameters)) /\
          metrics !! "up_bytes" =
            Some (SInt (FlowerClient.count_bytes (map ndarray (Keras.get_weights m2))))) /\
     (forall loss accuracy,
        Keras.evaluate m1 (x_test globals) (y_test globals) = inr (loss, accuracy) ->
        exists n metrics p',
          FlowerClient.evaluate globals self parameters config p =
            (inr (loss, n, metrics), p') /\
          metrics !! "down_bytes" = Some (SInt (FlowerClient.count_bytes parameters)))) /\
  (forall r results,
     Exists (fun cr => unconvertible (up_value cr.2) \/ unconvertible (down_value cr.2)) results ->
     RichStrategy.byte_tally results = (0%Z, 0%Z) /\ transfer_rows r results = []) /\
  (forall (S : Type) (St : Strategy S) (self : S) r x rest failures ui,
     (RichStrategy.aggregate_fit self r (x :: rest) failures ui).1 =
       super_aggregate_fit self r (x :: rest) failures).
Proof.
  split; [|split; [|split]].
  - intros ws Hws. unfold FlowerClient.count_bytes.
    by rewrite (sum_nbytes_raises ws 0 Hws).
  - intros M K globals self parameters config p m1 Hset. split.
    + intros m2 Hfit. by apply (fit_reports_counts globals self parameters config p m1 m2).
    + intros loss accuracy Heval.
      by apply (evaluate_reports_count globals self parameters config p m1 loss accuracy).
  - intros r results Hbad.
    assert (Htally : RichStrategy.byte_tally results = (0%Z, 0%Z)).
    { unfold RichStrategy.byte_tally.
      by destruct (tally_loop_raises results 0 0 Hbad) as (e & ->). }
    split; [exact Htally|].
    unfold transfer_rows. rewrite Htally. reflexivity.
  - intros S St self r x rest failures ui. apply aggregate_fit_returns_super.
Qed.

Lemma byte_counting_is_best_effort_witness :
  FlowerClient.count_bytes Toy.odd_parameters = 0%Z /\
  (RichStrategy.byte_tally SampleFit.broken = (0%Z, 0%Z) /\
   transfer_rows 1 SampleFit.broken = []).
Proof.
  split.
  - apply (proj1 byte_counting_is_best_effort Toy.odd_parameters).
    apply Exists_cons_tl, Exists_cons_hd. exact I.
  - apply (proj1 (proj2 (proj2 byte_counting_is_best_effort)) 1%Z SampleFit.broken).
    apply Exists_cons_tl, Exists_cons_hd. left. exact I.
Defined.

(** ** Further properties of the code *)

Lemma tally_loop_sums results : forall up down,
  Forall (fun cr => ~ unconvertible (up_value cr.2) /\ ~ unconvertible (down_value cr.2)) results ->
  RichStrategy.tally_loop results up down =
    inr (up + reported_up results, down + reported_down results)%Z.
Proof.
  unfold reported_up, reported_down.
  induction results as [|[c res] results IH]; intros up down Hall; simpl.
  - by rewrite !Z.add_0_r.
  - apply Forall_cons in Hall as [[Hup Hdown] Hall]. simpl in Hup, Hdown.
    fold (up_value res). fold (down_value res). unfold converted.
    destruct (up_value res) as [u|[qu| |nu]|bu]; try done;
      destruct (down_value res) as [d|[qd| |nd]|bd]; try done;
      cbn [Py.int mbind Result_bind]; rewrite IH by done; by rewrite !Z.add_assoc.
Qed.

Lemma byte_tally_sums_reported_bytes_aux (results : list (ClientProxy * FitRes)) :
  Forall (fun cr => ~ unconvertible (up_value cr.2) /\ ~ unconvertible (down_value cr.2)) results ->
  RichStrategy.byte_tally results = (reported_up results, reported_down results).
Proof.
  intros Hall. unfold RichStrategy.byte_tally.
  by rewrite (tally_loop_sums results 0 0 Hall).
Qed.

(** When every transfer metric of a round converts to an int, as the ones
    client.py reports do, the tally is the sum of the clients' "up_bytes"
    (else "bytes", else 0) and the sum of their "down_bytes" (else 0). *)
Theorem byte_tally_sums_reported_bytes (results : list (ClientProxy * FitRes)) :
  Forall (fun cr => ~ unconvertible (up_value cr.2) /\ ~ unconvertible (down_value cr.2)) results ->
  RichStrategy.byte_tally results = (reported_up results, reported_down results).
Proof.
  intros Hall. unfold RichStrategy.byte_tally.
  by rewrite (tally_loop_sums results 0 0 Hall).
Qed.

Lemma byte_tally_sums_reported_bytes_witness :
  RichStrategy.byte_tally SampleFit.results = (36%Z, 36%Z).
Proof.
  apply (byte_tally_sums_reported_bytes SampleFit.results).
  repeat constructor; simpl; tauto.
Defined.



(** [evaluate] applies the received parameters, scores the model on the
    local test set once, and returns the loss, [len(x_test)] and a metrics
    map that holds the accuracy. *)
Theorem evaluate_returns_loss_count_accuracy
    {M : Type} `{Keras.Model M} (globals : Globals) (self : FlowerClient.t)
    (parameters : list PyObject) (config : Metrics) (p : Process M) (m1 : M) (loss accuracy : Qc) :
  Keras.set_weights (model p) parameters = inr m1 ->
  Keras.evaluate m1 (x_test globals) (y_test globals) = inr (loss, accuracy) ->
  exists metrics p',
    FlowerClient.evaluate globals self parameters config p =
      (inr (loss, Z.of_nat (length (x_test globals)), metrics), p') /\
    metrics !! "accuracy" = Some (SFloat (finite accuracy)) /\
    model p' = m1 /\
    calls p' = calls p ++ [ call_set_weights parameters;
                            call_evaluate (x_test globals) (y_test globals) ].
Proof.
  intros Hset Heval.
  destruct (evaluate_run globals self parameters config p m1 loss accuracy Hset Heval)
    as (lines & Hrun).
  eexists _, _. split; [exact Hrun|]. split; [apply lookup_insert_eq | by split].
Qed.

Lemma evaluate_returns_loss_count_accuracy_witness :
  exists metrics p',
    FlowerClient.evaluate Toy.globals Toy.client Toy.parameters ∅ Toy.process =
      (inr (Q2Qc (1 # 4), 3%Z, metrics), p') /\
    metrics !! "accuracy" = Some (SFloat (finite (Q2Qc (3 # 4)))) /\
    model p' = [Toy.ten; Toy.twenty] /\
    calls p' = [] ++ [ call_set_weights Toy.parameters;
                       call_evaluate (x_test Toy.globals) (y_test Toy.globals) ].
Proof.
  exact (evaluate_returns_loss_count_accuracy Toy.globals Toy.client Toy.parameters ∅
           Toy.process [Toy.ten; Toy.twenty] (Q2Qc (1 # 4)) (Q2Qc (3 # 4)) eq_refl eq_refl).
Defined.

(** ** The byte tally and the order of the results *)

Lemma unconvertible_dec (x : Scalar) : {unconvertible x} + {~ unconvertible x}.
Proof. destruct x as [z|[q| |neg]|b]; simpl; auto. Qed.

Lemma transfer_metrics_dec (cr : ClientProxy * FitRes) :
  {~ unconvertible (up_value cr.2) /\ ~ unconvertible (down_value cr.2)} +
  {unconvertible (up_value cr.2) \/ unconvertible (down_value cr.2)}.
Proof.
  destruct (unconvertible_dec (up_value cr.2)); [by right; left|].
  destruct (unconvertible_dec (down_value cr.2)); [by right; right|].
  by left.
Qed.

Lemma reported_permutation results results' :
  Permutation results results' ->
  reported_up results = reported_up results' /\ reported_down results = reported_down results'.
Proof.
  unfold reported_up, reported_down.
  induction 1 as [|x l l' _ [IHu IHd]|x y l|l l' l'' _ [IHu1 IHd1] _ [IHu2 IHd2]];
    simpl; split; lia.
Qed.

(** The totals of a round do not depend on the order in which the results
    are listed, whether or not a conversion fails on the way: the tally of
    a permutation of the results is the same pair. *)
Theorem byte_tally_permutation_invariant (results results' : list (ClientProxy * FitRes)) :
  Permutation results results' ->
  RichStrategy.byte_tally results = RichStrategy.byte_tally results'.
Proof.
  intros Hperm.
  destruct (Forall_Exists_dec _ _ transfer_metrics_dec results) as [Hgood|Hbad].
  - assert (Hgood' : Forall (fun cr => ~ unconvertible (up_value cr.2) /\
                                       ~ unconvertible (down_value cr.2)) results')
      by (by rewrite <- Hperm).
    rewrite (byte_tally_sums_reported_bytes_aux results Hgood),
            (byte_tally_sums_reported_bytes_aux results' Hgood').
    destruct (reported_permutation results results' Hperm) as [-> ->]. reflexivity.
  - assert (Hbad' : Exists (fun cr => unconvertible (up_value cr.2) \/
                                      unconvertible (down_value cr.2)) results')
      by (by rewrite <- Hperm).
    unfold RichStrategy.byte_tally.
    destruct (tally_loop_raises results 0 0 Hbad) as (e & ->).
    destruct (tally_loop_raises results' 0 0 Hbad') as (e' & ->).
    reflexivity.
Qed.

Lemma byte_tally_permutation_invariant_witness :
  RichStrategy.byte_tally SampleFit.results = RichStrategy.byte_tally SampleRound.shuffled.
Proof.
  apply (byte_tally_permutation_invariant SampleFit.results SampleRound.shuffled).
  apply Permutation_sym.
  apply (Permutation_cons_append [SampleFit.first; SampleFit.second] SampleFit.third).
Defined.

(** ** What the wrapper adds to the parent's aggregation *)

Section wrapper_effects.
Context {S : Type} `{Strategy S} (self : S).

(** An exception of the parent's aggregation leaves the wrapper unchanged:
    [aggregate_fit] has then logged its opening row and nothing else (no
    transfer row, no warning about failures), and [aggregate_evaluate] has
    logged nothing. *)
Theorem parent_exception_passes_through r e ui :
  (forall x rest failures,
     super_aggregate_fit self r (x :: rest) failures = inl e ->
     RichStrategy.aggregate_fit self r (x :: rest) failures ui =
       (inl e, mk_ui (table ui ++ [aggregating_row r (x :: rest)]))) /\
  (forall x rest failures,
     super_aggregate_evaluate self r (x :: rest) failures = inl e ->
     RichStrategy.aggregate_evaluate self r (x :: rest) failures ui = (inl e, ui)).
Proof.
  split.
  - intros x rest failures Hsuper. by rewrite aggregate_fit_run, Hsuper.
  - intros x rest failures Hsuper.
    unfold RichStrategy.aggregate_evaluate. run_eff. by rewrite Hsuper.
Qed.

(** [aggregate_evaluate] hands the parent's loss back unchanged and never
    adds a metric: the map it returns is contained in the aggregated map.
    It logs exactly one row. *)
Theorem aggregate_evaluate_keeps_loss_adds_no_metric r x rest failures ui loss (metrics : Metrics) :
  super_aggregate_evaluate self r (x :: rest) failures = inr (loss, metrics) ->
  exists (returned : Metrics) row,
    RichStrategy.aggregate_evaluate self r (x :: rest) failures ui =
      (inr (loss, returned), mk_ui (table ui ++ [row])) /\
    returned ⊆ metrics.
Proof.
  intros Hsuper. rewrite (aggregate_evaluate_gate self r x rest failures ui loss metrics Hsuper).
  destruct (metrics !! "accuracy") as [accuracy|] eqn:Hacc.
  - eexists _, _. split; [reflexivity|]. by apply map_singleton_subseteq_l.
  - eexists _, _. split; [reflexivity|]. reflexivity.
Qed.

Lemma transfer_rows_length r results : (length (transfer_rows r results) <= 1)%nat.
Proof.
  unfold transfer_rows. destruct (RichStrategy.byte_tally results) as [up down].
  unfold logged, RichStrategy.log_transfer.
  destruct (bool_decide (0 < up)%Z || bool_decide (0 < down)%Z); simpl; lia.
Qed.

(** Both aggregation methods only append to the table: the rows that were
    there stay, in their order. [aggregate_fit] appends one to three rows,
    [aggregate_evaluate] at most one, on every input and whatever the
    parent does. *)
Theorem aggregation_only_appends_rows r ui :
  (forall results failures,
     exists rows,
       table (RichStrategy.aggregate_fit self r results failures ui).2 = table ui ++ rows /\
       (1 <= length rows <= 3)%nat) /\
  (forall results failures,
     exists rows,
       table (RichStrategy.aggregate_evaluate self r results failures ui).2 = table ui ++ rows /\
       (length rows <= 1)%nat).
Proof.
  split.
  - intros [|x rest] failures.
    + eexists [_]. split; [reflexivity | simpl; lia].
    + rewrite aggregate_fit_run.
      destruct (super_aggregate_fit self r (x :: rest) failures) as [e|agg]; simpl.
      * eexists [_]. split; [reflexivity | simpl; lia].
      * eexists. split; [reflexivity|]. simpl. rewrite length_app.
        pose proof (transfer_rows_length r (x :: rest)).
        destruct failures; simpl; lia.
  - intros [|x rest] failures.
    + eexists [_]. split; [reflexivity | simpl; lia].
    + destruct (super_aggregate_evaluate self r (x :: rest) failures)
        as [e|[loss metrics]] eqn:Hsuper.
      * exists []. rewrite app_nil_r. split; [|simpl; lia].
        unfold RichStrategy.aggregate_evaluate. run_eff. by rewrite Hsuper.
      * rewrite (aggregate_evaluate_gate self r x rest failures ui loss metrics Hsuper).
        destruct (metrics !! "accuracy"); eexists [_]; (split; [reflexivity | simpl; lia]).
Qed.

End wrapper_effects.

Lemma parent_exception_passes_through_witness :
  RichStrategy.aggregate_fit strategy 1 SampleErrors.mismatched SampleFit.failures (mk_ui []) =
    (inl ValueError, mk_ui ([] ++ [aggregating_row 1 SampleErrors.mismatched])) /\
  RichStrategy.aggregate_evaluate strategy 1 SampleErrors.no_examples [] (mk_ui []) =
    (inl ZeroDivisionError, mk_ui []).
Proof.
  split.
  - apply (proj1 (@parent_exception_passes_through FedAvg.t FedAvg_Strategy strategy 1
                    ValueError (mk_ui []))
             SampleFit.first [(Sample.client "1", SampleFit.fit_res [[4; 5; 6]; [7]]%Q 2)]
             SampleFit.failures).
    reflexivity.
  - apply (proj2 (@parent_exception_passes_through FedAvg.t FedAvg_Strategy strategy 1
                    ZeroDivisionError (mk_ui []))
             (Sample.client "0", Sample.evaluate_res (1 # 2) (9 # 10) 0 120) [] []).
    reflexivity.
Defined.

Lemma aggregate_evaluate_keeps_loss_adds_no_metric_witness :
  exists (returned : Metrics) row,
    RichStrategy.aggregate_evaluate Sample.strategy_with_metrics 1 Sample.evaluate_results []
      (mk_ui []) = (inr (Some Sample.evaluate_loss, returned), mk_ui ([] ++ [row])) /\
    returned ⊆ eval_metrics (Sample.evaluate_res (1 # 2) (9 # 10) 10 120).
Proof.
  apply (@aggregate_evaluate_keeps_loss_adds_no_metric FedAvg.t FedAvg_Strategy
           Sample.strategy_with_metrics 1
           (Sample.client "0", Sample.evaluate_res (1 # 2) (9 # 10) 10 120)
           [(Sample.client "1", Sample.evaluate_res (1 # 4) (8 # 10) 30 120)]
           [] (mk_ui []) (Some Sample.evaluate_loss)
           (eval_metrics (Sample.evaluate_res (1 # 2) (9 # 10) 10 120))).
  reflexivity.
Defined.

(** ** From the client's answer to the server's tally *)

Lemma np_size_nonneg (a : NDArray) : (0 <= np.size a)%Z.
Proof.
  unfold np.size. induction (shape a) as [|d ds IH]; simpl; [lia|].
  apply Z.mul_nonneg_nonneg; [lia | exact IH].
Qed.

Lemma np_nbytes_nonneg (a : NDArray) : (0 <= np.nbytes a)%Z.
Proof.
  unfold np.nbytes. apply Z.mul_nonneg_nonneg; [|apply np_size_nonneg].
  destruct (dtype a); simpl; lia.
Qed.

Lemma serialized_size_nonneg (arrays : NDArrays) : (0 <= serialized_size arrays)%Z.
Proof.
  unfold serialized_size. induction arrays as [|a arrays IH]; simpl; [lia|].
  pose proof (np_nbytes_nonneg a). lia.
Qed.

Lemma sum_nbytes_grows (ws : list PyObject) : forall acc total,
  FlowerClient.sum_nbytes acc ws = inr total -> (acc <= total)%Z.
Proof.
  induction ws as [|[a|repr] ws IH]; intros acc total Hsum; simpl in Hsum.
  - injection Hsum as <-. lia.
  - apply IH in Hsum. pose proof (np_nbytes_nonneg a). lia.
  - discriminate.
Qed.

Lemma count_bytes_nonneg (ws : list PyObject) : (0 <= FlowerClient.count_bytes ws)%Z.
Proof.
  unfold FlowerClient.count_bytes.
  destruct (FlowerClient.sum_nbytes 0 ws) as [e|total] eqn:Hsum; [lia|].
  by apply sum_nbytes_grows in Hsum.
Qed.

Section client_answers.
Context {M : Type} `{Keras.Model M}.

(** What a returning run of [fit] has put in its answer. *)
Lemma fit_answer globals self parameters config (p p' : Process M) weights n metrics :
  FlowerClient.fit globals self parameters config p = (inr (weights, n, metrics), p') ->
  metrics = <["up_bytes" := SInt (FlowerClient.count_bytes (map ndarray weights))]>
              (<["down_bytes" := SInt (FlowerClient.count_bytes parameters)]> ∅) /\
  n = Z.of_nat (length (x_train globals)).
Proof.
  unfold FlowerClient.fit, FlowerClient.log_info, FlowerClient.model_set_weights,
    FlowerClient.model_fit, FlowerClient.model_get_weights.
  unfold mbind, mret, Eff_bind, Eff_ret. cbn [model calls log_lines].
  destruct (Keras.set_weights (model p) parameters) as [e|m1]; [discriminate|].
  cbn [model calls log_lines].
  destruct (Keras.fit m1 (x_train globals) (y_train globals) FlowerClient.fit_args)
    as [e|m2]; [discriminate|].
  cbn [model calls log_lines].
  intros Hrun. injection Hrun as <- <- <- _. by split.
Qed.

Lemma answered_transfer_metrics res :
  answered_by_fit M res ->
  up_value res = SInt (serialized_size (fit_parameters res)) /\
  exists down, down_value res = SInt down /\ (0 <= down)%Z.
Proof.
  intros (globals & self & parameters & config & p & p' & Hrun).
  apply fit_answer in Hrun as [Hmetrics _].
  unfold up_value, down_value, Py.get. rewrite Hmetrics. split.
  - rewrite lookup_insert_eq. by rewrite count_bytes_arrays.
  - rewrite lookup_insert_ne by done. rewrite lookup_insert_eq.
    eexists. split; [reflexivity | apply count_bytes_nonneg].
Qed.

Lemma answered_reported (results : list (ClientProxy * FitRes)) :
  Forall (fun cr => answered_by_fit M cr.2) results ->
  reported_up results =
    foldr Z.add 0%Z (map (fun cr => serialized_size (fit_parameters cr.2)) results) /\
  (0 <= reported_down results)%Z.
Proof.
  unfold reported_up, reported_down.
  induction 1 as [|cr results Hcr Hall [IHup IHdown]]; simpl; [split; [reflexivity | lia]|].
  destruct (answered_transfer_metrics cr.2 Hcr) as (Hup & down & Hdown & Hpos).
  unfold converted at 1 3. rewrite Hup, Hdown. cbn [Py.int].
  split; [by rewrite IHup | lia].
Qed.

Lemma serialized_sizes_nonneg (results : list (ClientProxy * FitRes)) :
  (0 <= foldr Z.add 0%Z (map (fun cr => serialized_size (fit_parameters cr.2)) results))%Z.
Proof.
  induction results as [|cr results IH]; simpl; [lia|].
  pose proof (serialized_size_nonneg (fit_parameters cr.2)). lia.
Qed.

(** The answers of this client always tally: for a round whose results
    were all returned by [FlowerClient.fit], the server's tally takes no
    exception branch, the total sent up is the byte size of the returned
    ParameterSets added up, and neither total is negative. *)
Theorem client_answers_always_tally (results : list (ClientProxy * FitRes)) :
  Forall (fun cr => answered_by_fit M cr.2) results ->
  exists total_down,
    RichStrategy.byte_tally results =
      (foldr Z.add 0%Z (map (fun cr => serialized_size (fit_parameters cr.2)) results),
       total_down) /\
    (0 <= foldr Z.add 0%Z (map (fun cr => serialized_size (fit_parameters cr.2)) results))%Z /\
    (0 <= total_down)%Z.
Proof.
  intros Hall. exists (reported_down results).
  destruct (answered_reported results Hall) as [Hup Hdown].
  split; [|split; [apply serialized_sizes_nonneg | exact Hdown]].
  rewrite byte_tally_sums_reported_bytes_aux; [by rewrite Hup|].
  eapply Forall_impl; [exact Hall|]. intros cr Hcr.
  destruct (answered_transfer_metrics cr.2 Hcr) as (Hu & down & Hd & _).
  rewrite Hu, Hd. simpl. tauto.
Qed.

(** After a [fit] that returned, [get_parameters] returns the very weights
    that [fit] returned, and leaves the model as [fit] left it. *)
Theorem get_parameters_after_fit globals self parameters config config' (p : Process M) m1 m2 :
  Keras.set_weights (model p) parameters = inr m1 ->
  Keras.fit m1 (x_train globals) (y_train globals) FlowerClient.fit_args = inr m2 ->
  exists weights n metrics p1 p2,
    FlowerClient.fit globals self parameters config p = (inr (weights, n, metrics), p1) /\
    FlowerClient.get_parameters self config' p1 = (inr weights, p2) /\
    model p2 = model p1 /\ model p1 = m2.
Proof.
  intros Hset Hfit.
  destruct (fit_run globals self parameters config p m1 m2 Hset Hfit) as (lines & Hrun).
  eexists _, _, _, _, _. split; [exact Hrun|]. by repeat split.
Qed.


End client_answers.

Lemma sample_answer_is_answered : answered_by_fit NDArrays SampleAnswer.res.
Proof.
  assert (Hset : Keras.set_weights (model Toy.process) Toy.parameters
                 = inr [Toy.ten; Toy.twenty]) by reflexivity.
  assert (Hfit : Keras.fit [Toy.ten; Toy.twenty] (x_train Toy.globals) (y_train Toy.globals)
                   FlowerClient.fit_args
                 = inr [np.multiply Toy.ten (Q2Qc (1 # 2));
                        np.multiply Toy.twenty (Q2Qc (1 # 2))]) by reflexivity.
  destruct (fit_run Toy.globals Toy.client Toy.parameters ∅ Toy.process _ _ Hset Hfit)
    as (lines & Hrun).
  exists Toy.globals, Toy.client, Toy.parameters, ∅, Toy.process. eexists. exact Hrun.
Defined.

Lemma client_answers_always_tally_witness :
  exists total_down,
    RichStrategy.byte_tally SampleAnswer.results = (240%Z, total_down) /\
    (0 <= 240)%Z /\ (0 <= total_down)%Z.
Proof.
  apply (@client_answers_always_tally NDArrays Toy.keras SampleAnswer.results).
  repeat constructor; exact sample_answer_is_answered.
Defined.

Lemma get_parameters_after_fit_witness :
  exists weights n metrics p1 p2,
    FlowerClient.fit Toy.globals Toy.client Toy.parameters ∅ Toy.process =
      (inr (weights, n, metrics), p1) /\
    FlowerClient.get_parameters Toy.client ∅ p1 = (inr weights, p2) /\
    model p2 = model p1 /\
    model p1 = [np.multiply Toy.ten (Q2Qc (1 # 2)); np.multiply Toy.twenty (Q2Qc (1 # 2))].
Proof.
  exact (get_parameters_after_fit Toy.globals Toy.client Toy.parameters ∅ ∅ Toy.process
           [Toy.ten; Toy.twenty]
           [np.multiply Toy.ten (Q2Qc (1 # 2)); np.multiply Toy.twenty (Q2Qc (1 # 2))]
           eq_refl eq_refl).
Defined.


(** ** The server program *)

Section server_program.
Context {A : Type} (start_server : string -> Z -> FedAvg.t -> UI A) (str : Exn -> string).




End server_program.



(** ** The client program *)

Section client_program.
Context {M : Type} `{Keras.Model M}
  (start_numpy_client : string -> FlowerClient.t -> Eff (Process M) unit)
  (str : Exn -> string).



End client_program.



(** ** Loading the data *)

Section loading.
#[local] Open Scope Qc_scope.

Lemma scaled_pixel_in_unit_interval (pixel : Z) :
  (0 <= pixel <= 255)%Z -> 0 ≤ Qc_of_Z pixel / Qc_of_Z 255 ∧ Qc_of_Z pixel / Qc_of_Z 255 ≤ 1.
Proof.
  intros [Hlo Hhi].
  assert (Hpos : 0 < Qc_of_Z 255) by (rewrite <- Z2Qc_inj_0; by apply Z2Qc_inj_lt).
  assert (Hne : Qc_of_Z 255 <> 0) by (apply Qc_of_Z_nonzero; lia).
  split.
  - apply (Qcmult_le_mono_pos_l _ _ (Qc_of_Z 255) Hpos).
    rewrite Qcmult_0_r, (Qcmult_div_r _ _ Hne).
    rewrite <- Z2Qc_inj_0. by apply (proj1 (Z2Qc_inj_le 0 pixel)).
  - apply (Qcmult_le_mono_pos_l _ _ (Qc_of_Z 255) Hpos).
    rewrite Qcmult_1_r, (Qcmult_div_r _ _ Hne).
    by apply (proj1 (Z2Qc_inj_le pixel 255)).
Qed.

Lemma scale_in_unit_interval (images : list (list Z)) :
  Forall (Forall (fun pixel => (0 <= pixel <= 255)%Z)) images ->
  Forall (Forall (fun value => 0 ≤ value ∧ value ≤ 1)) (map Client.scale images).
Proof.
  intros Himages. apply Forall_fmap. eapply Forall_impl; [exact Himages|].
  intros image Himage. unfold Client.scale. apply Forall_fmap.
  eapply Forall_impl; [exact Himage|].
  intros pixel Hpixel. by apply scaled_pixel_in_unit_interval.
Qed.

(** Loading scales every pixel of 0..255 into the interval from 0 to 1
    and changes neither the number of samples nor the size of an image:
    the example counts that [fit] and [evaluate] return are the numbers of
    samples of the raw training and test sets. *)
Theorem loading_scales_pixels_keeps_counts
    (x_train_raw : list (list Z)) (y_train_raw : list Label)
    (x_test_raw : list (list Z)) (y_test_raw : list Label) :
  Forall (Forall (fun pixel => (0 <= pixel <= 255)%Z)) x_train_raw ->
  Forall (Forall (fun pixel => (0 <= pixel <= 255)%Z)) x_test_raw ->
  Forall (Forall (fun value => 0 ≤ value ∧ value ≤ 1))
    (x_train (Client.load x_train_raw y_train_raw x_test_raw y_test_raw)) /\
  Forall (Forall (fun value => 0 ≤ value ∧ value ≤ 1))
    (x_test (Client.load x_train_raw y_train_raw x_test_raw y_test_raw)) /\
  map length (x_train (Client.load x_train_raw y_train_raw x_test_raw y_test_raw))
    = map length x_train_raw /\
  map length (x_test (Client.load x_train_raw y_train_raw x_test_raw y_test_raw))
    = map length x_test_raw.
Proof.
  intros Htrain Htest. simpl. repeat split.
  - by apply scale_in_unit_interval.
  - by apply scale_in_unit_interval.
  - rewrite map_map. apply map_ext. intros image. apply length_map.
  - rewrite map_map. apply map_ext. intros image. apply length_map.
Qed.

End loading.

Lemma loading_scales_pixels_keeps_counts_witness :
  Forall (Forall (fun value => (0 ≤ value ∧ value ≤ 1)%Qc))
    (x_train (Client.load SampleData.x_train_raw SampleData.y_train_raw
                SampleData.x_test_raw SampleData.y_test_raw)) /\
  Forall (Forall (fun value => (0 ≤ value ∧ value ≤ 1)%Qc))
    (x_test (Client.load SampleData.x_train_raw SampleData.y_train_raw
               SampleData.x_test_raw SampleData.y_test_raw)) /\
  map length (x_train (Client.load SampleData.x_train_raw SampleData.y_train_raw
                         SampleData.x_test_raw SampleData.y_test_raw))
    = map length SampleData.x_train_raw /\
  map length (x_test (Client.load SampleData.x_train_raw SampleData.y_train_raw
                        SampleData.x_test_raw SampleData.y_test_raw))
    = map length SampleData.x_test_raw.
Proof.
  apply (loading_scales_pixels_keeps_counts SampleData.x_train_raw SampleData.y_train_raw
           SampleData.x_test_raw SampleData.y_test_raw).
  - repeat constructor; lia.
  - repeat constructor; lia.
Defined.

(** ** Rows and rounds *)

Lemma to_int_not_nil (z : Z) : Z.to_int z <> Decimal.Pos Decimal.Nil /\ Z.to_int z <> Decimal.Neg Decimal.Nil.
Proof.
  destruct z as [|p|p]; simpl; split; try discriminate.
  - intros Heq. injection Heq as Heq. by apply DecimalPos.Unsigned.to_uint_nonnil in Heq.
  - intros Heq. injection Heq as Heq. by apply DecimalPos.Unsigned.to_uint_nonnil in Heq.
Qed.

(** The decimal text of an int reads back as that int. *)
Lemma str_of_Z_reads_back (z : Z) :
  NilZero.int_of_string (Fmt.str_of_Z z) = Some (Z.to_int z).
Proof.
  unfold Fmt.str_of_Z. destruct (to_int_not_nil z) as [Hpos Hneg].
  by apply NilZero.isi.
Qed.

Lemma round_label_inj (r r' : Z) :
  RichStrategy.round_label r = RichStrategy.round_label r' -> r = r'.
Proof.
  unfold RichStrategy.round_label. intros Heq. cbn [append] in Heq.
  injection Heq as Heq.
  change ("" ++ Fmt.str_of_Z r)%string with (Fmt.str_of_Z r) in Heq.
  change ("" ++ Fmt.str_of_Z r')%string with (Fmt.str_of_Z r') in Heq.
  apply (f_equal NilZero.int_of_string) in Heq.
  rewrite !str_of_Z_reads_back in Heq. injection Heq as Heq.
  by apply DecimalZ.to_int_inj.
Qed.

Lemma transfer_rows_label r results :
  Forall (fun row => row.1 = RichStrategy.round_label r) (transfer_rows r results).
Proof.
  unfold transfer_rows. destruct (RichStrategy.byte_tally results) as [up down].
  unfold logged, RichStrategy.log_transfer.
  destruct (bool_decide (0 < up)%Z || bool_decide (0 < down)%Z); simpl; by repeat constructor.
Qed.

(** Every row that [aggregate_fit] or [aggregate_evaluate] logs in round
    [r] carries the label of that round, on every input and whatever the
    parent does, and the labels of two different rounds are different, so
    each row of the table can be attributed to its round. *)
Theorem rows_carry_the_label_of_their_round
    {S : Type} `{Strategy S} (self : S) (r : Z) (ui : ServerUI) :
  (forall results failures,
     Forall (fun row => row.1 = RichStrategy.round_label r)
       (logged (RichStrategy.aggregate_fit self r results failures) ui)) /\
  (forall results failures,
     Forall (fun row => row.1 = RichStrategy.round_label r)
       (logged (RichStrategy.aggregate_evaluate self r results failures) ui)) /\
  (forall r', r <> r' -> RichStrategy.round_label r <> RichStrategy.round_label r').
Proof.
  split; [|split].
  - intros [|x rest] failures; unfold logged.
    + simpl. rewrite drop_table. by repeat constructor.
    + rewrite aggregate_fit_run.
      destruct (super_aggregate_fit self r (x :: rest) failures) as [e|agg]; simpl;
        rewrite drop_table; [by repeat constructor|].
      constructor; [reflexivity|]. apply Forall_app. split; [apply transfer_rows_label|].
      destruct failures; by repeat constructor.
  - intros [|x rest] failures; unfold logged.
    + simpl. rewrite drop_table. by repeat constructor.
    + destruct (super_aggregate_evaluate self r (x :: rest) failures)
        as [e|[loss metrics]] eqn:Hsuper.
      * unfold RichStrategy.aggregate_evaluate. run_eff. rewrite Hsuper. simpl.
        rewrite drop_all. constructor.
      * rewrite (aggregate_evaluate_gate self r x rest failures ui loss metrics Hsuper).
        destruct (metrics !! "accuracy"); simpl; rewrite drop_table; by repeat constructor.
  - intros r' Hne Heq. by apply Hne, round_label_inj.
Qed.

Lemma rows_carry_the_label_of_their_round_witness :
  Forall (fun row => row.1 = RichStrategy.round_label 1)
    (logged (RichStrategy.aggregate_fit strategy 1 SampleFit.results SampleFit.failures)
       (mk_ui [])) /\
  RichStrategy.round_label 1 <> RichStrategy.round_label 2.
Proof.
  split.
  - apply (proj1 (rows_carry_the_label_of_their_round strategy 1 (mk_ui []))).
  - apply (proj2 (proj2 (rows_carry_the_label_of_their_round strategy 1 (mk_ui []))) 2%Z).
    discriminate.
Defined.
